(** * Token provider (service-a) and action consumer (service-b)

    A shallow embedding of the two Flask services of the lab:
    - [ServiceA]: [src/python-http/service-a/app.py], the credential
      authority with its [/token] endpoint;
    - [ServiceB]: [src/python-http/service-b/app.py], the consumer whose
      [call_provider_token] forwards to the provider with one bounded retry
      and whose [/protected-action] endpoint renders the outcome.

    Conventions.
    - Python values that travel through JSON are of type [Py.json]; a Python
      [dict] with string keys is a [gmap string _].
    - A handler is a function of the inbound request and of the process-wide
      [METRICS] dictionary; it returns its result, the new [METRICS] and the
      list of effects it performed, in program order ([Py.event]).
    - Code that can raise returns a [Py.result]; what Flask does with an
      exception that leaves a view is in [handle] of each service.
    - The clock is not modelled: the ["ts"] and ["latency_ms"] fields of log
      records are left out, and durations are recorded, not waited for.
      Whether a call of [time.sleep] returns is part of what the environment
      of a request does ([ServiceA.sleep_raises]).
    - A Python [str] is represented by its UTF-8 encoding, one [ascii] per
      byte.
    - Reading the inbound body and serialising responses and log records
      are taken to return: a request on which [request.get_json] itself
      raises (a body nested beyond the interpreter's recursion limit) is
      not among the requests of the model. *)

From Stdlib Require Import ZArith SpecFloat Lia.
From stdpp Require Import gmap strings list.

#[local] Set Warnings "-register-all".
#[local] Open Scope Z_scope.

(** ** The Python values and builtins the two services use *)
Module Py.

(** A parsed JSON document as [json.loads] builds it: [None], [bool], [int],
    [float] (an IEEE 754 double, so [NaN] and the infinities included),
    [str], [list] and [dict]. *)
Inductive json : Type :=
| JNull
| JBool (b : bool)
| JInt (z : Z)
| JFloat (f : spec_float)
| JStr (s : string)
| JList (l : list json)
| JDict (d : gmap string json).

(** Exceptions, by the classes the [except] clauses of the services tell
    apart.  The [requests] hierarchy: [ConnectTimeout] derives from both
    [ConnectionError] and [Timeout]; [ReadTimeout] from [Timeout];
    [HTTPError] (built by [raise_for_status]) and [JSONDecodeError] (built by
    [Response.json], through [InvalidJSONError]) from [RequestException], as
    every other class of [requests.exceptions] does.  The builtin classes
    [AttributeError], [OverflowError], [OSError], [RecursionError] and
    [ValueError] are outside that hierarchy, and [NonRequestError] is any
    other exception outside it. *)
Inductive exc_class : Type :=
| AttributeError
| OverflowError
| OSError
| RecursionError
| ValueError
| ReadTimeout
| ConnectTimeout
| ConnectionError
| HTTPError
| JSONDecodeError
| OtherRequestException
| NonRequestError.

Record exc : Type := Exc { exc_type : exc_class; exc_str : string }.

Definition isinstance_Timeout (e : exc) : bool :=
  match exc_type e with
  | ReadTimeout | ConnectTimeout => true
  | _ => false
  end.

Definition isinstance_ConnectionError (e : exc) : bool :=
  match exc_type e with
  | ConnectionError | ConnectTimeout => true
  | _ => false
  end.

Definition isinstance_RequestException (e : exc) : bool :=
  match exc_type e with
  | ReadTimeout | ConnectTimeout | ConnectionError | HTTPError
  | JSONDecodeError | OtherRequestException => true
  | _ => false
  end.

(** The result of code that may raise. *)
Inductive result (A : Type) : Type :=
| Ok (a : A)
| Raised (e : exc).
Arguments Ok {A} a.
Arguments Raised {A} e.

#[global] Instance result_ret : MRet result := fun A a => Ok a.
#[global] Instance result_bind : MBind result := fun A B f r =>
  match r with
  | Ok a => f a
  | Raised e => Raised e
  end.

(** Observable effects of a handler, in program order. *)
Inductive event : Type :=
| Sleep (millis : Z)
  (* time.sleep(millis / 1000) *)
| PrintJson (record : gmap string json)
  (* print(json.dumps(record)) *)
| Post (url : string) (payload : gmap string json)
       (headers : gmap string string) (timeout : spec_float).
  (* requests.post(url, json=payload, headers=headers, timeout=timeout) *)

Definition is_post (ev : event) : bool :=
  match ev with Post _ _ _ _ => true | _ => false end.

Definition is_sleep (ev : event) : bool :=
  match ev with Sleep _ => true | _ => false end.

(** The headers and the JSON payload of an outbound call. *)
Definition post_headers (ev : event) : option (gmap string string) :=
  match ev with Post _ _ hs _ => Some hs | _ => None end.


(** The number of outbound calls, and of sleeps, among the effects of a
    run. *)
Definition posts (evs : list event) : nat := length (List.filter is_post evs).
Definition sleeps (evs : list event) : nat := length (List.filter is_sleep evs).

(** Truth value of an object: [None], [False], zero, and empty containers
    are false; [NaN] is true. *)
Definition truthy (v : json) : bool :=
  match v with
  | JNull => false
  | JBool b => b
  | JInt z => negb (z =? 0)
  | JFloat (S754_zero _) => false
  | JFloat _ => true
  | JStr s => negb (Nat.eqb (String.length s) 0)
  | JList l => negb (Nat.eqb (length l) 0)
  | JDict d => negb (Nat.eqb (size d) 0)
  end.

(** [a or b] *)
Definition or_ (a b : json) : json := if truthy a then a else b.

(** An optional value as the Python object a [.get] hands out. *)
Definition of_option (o : option json) : json := default JNull o.

(** [obj.get(key)]: a [dict] answers the value or [None]; no other JSON
    value has the attribute. *)
Definition get (obj : json) (key : string) : result json :=
  match obj with
  | JDict d => Ok (of_option (d !! key))
  | _ => Raised (Exc AttributeError "object has no attribute 'get'")
  end.

(** The text whose UTF-8 encoding is the bytes [bs]. *)
Definition utf8 (bs : list nat) : string :=
  foldr (fun b s => String (Ascii.ascii_of_nat b) s) EmptyString bs.

(** The characters [str.isspace] accepts, each by its encoding: U+0009 to
    U+000D, U+001C to U+001F, U+0020, U+0085, U+00A0, U+1680, U+2000 to
    U+200A, U+2028, U+2029, U+202F, U+205F and U+3000. *)
Definition WHITESPACE : list string :=
  utf8 <$>
    [[9]; [10]; [11]; [12]; [13]; [28]; [29]; [30]; [31]; [32];
     [194; 133]; [194; 160]; [225; 154; 128];
     [226; 128; 128]; [226; 128; 129]; [226; 128; 130]; [226; 128; 131];
     [226; 128; 132]; [226; 128; 133]; [226; 128; 134]; [226; 128; 135];
     [226; 128; 136]; [226; 128; 137]; [226; 128; 138];
     [226; 128; 168]; [226; 128; 169]; [226; 128; 175]; [226; 129; 159];
     [227; 128; 128]]%nat.

(** [s] without the leading [p], when it begins with [p]. *)
Fixpoint drop_prefix (p s : string) : option string :=
  match p, s with
  | EmptyString, _ => Some s
  | String a p', String b s' =>
      if Ascii.eqb a b then drop_prefix p' s' else None
  | String _ _, EmptyString => None
  end.

(** [s] without the first of the texts [ps] it begins with. *)
Fixpoint drop_any (ps : list string) (s : string) : option string :=
  match ps with
  | [] => None
  | p :: ps' =>
      match drop_prefix p s with
      | Some s' => Some s'
      | None => drop_any ps' s
      end
  end.

(** [s] without its leading characters from [ps]; [n] bounds the number of
    characters removed. *)
Fixpoint lstrip_n (ps : list string) (n : nat) (s : string) : string :=
  match n with
  | O => s
  | S n' =>
      match drop_any ps s with
      | Some s' => lstrip_n ps n' s'
      | None => s
      end
  end.

Definition lstrip_of (ps : list string) (s : string) : string :=
  lstrip_n ps (String.length s) s.

(** Whether [s] is made of characters from [ps] only. *)
Fixpoint only_n (ps : list string) (n : nat) (s : string) : bool :=
  match s with
  | EmptyString => true
  | String _ _ =>
      match n with
      | O => false
      | S n' =>
          match drop_any ps s with
          | Some s' => only_n ps n' s'
          | None => false
          end
      end
  end.

Definition only_of (ps : list string) (s : string) : bool :=
  only_n ps (String.length s) s.

(** [s] without its trailing characters from [ps]: cut where the rest is
    made of them only. *)
Fixpoint rstrip_of (ps : list string) (s : string) : string :=
  match s with
  | EmptyString => EmptyString
  | String a s' =>
      if only_of ps s then EmptyString else String a (rstrip_of ps s')
  end.

Definition strip_of (ps : list string) (s : string) : string :=
  rstrip_of ps (lstrip_of ps s).

(** [s.strip()] *)
Definition str_strip (s : string) : string := strip_of WHITESPACE s.

(** [obj.strip()]: only [str] has the method. *)
Definition strip (obj : json) : result string :=
  match obj with
  | JStr s => Ok (str_strip s)
  | _ => Raised (Exc AttributeError "object has no attribute 'strip'")
  end.

(** [obj == s] for a [str] literal [s]. *)
Definition eq_str (obj : json) (s : string) : bool :=
  match obj with
  | JStr t => String.eqb t s
  | _ => false
  end.

(** [int(f)] for a float: truncation toward zero; [None] where Python raises
    ([OverflowError] on an infinity, [ValueError] on [NaN]). *)
Definition int_of_float (f : spec_float) : option Z :=
  match f with
  | S754_zero _ => Some 0
  | S754_infinity _ => None
  | S754_nan => None
  | S754_finite s m e =>
      let mag := Z.shiftl (Z.pos m) e in
      Some (if s then - mag else mag)
  end.

(** White space [int] skips around a literal: what [str.isspace] accepts
    without U+001C to U+001F. *)
Definition INT_WHITESPACE : list string :=
  utf8 <$>
    [[9]; [10]; [11]; [12]; [13]; [32];
     [194; 133]; [194; 160]; [225; 154; 128];
     [226; 128; 128]; [226; 128; 129]; [226; 128; 130]; [226; 128; 131];
     [226; 128; 132]; [226; 128; 133]; [226; 128; 134]; [226; 128; 135];
     [226; 128; 136]; [226; 128; 137]; [226; 128; 138];
     [226; 128; 168]; [226; 128; 169]; [226; 128; 175]; [226; 129; 159];
     [227; 128; 128]]%nat.

(** The digit zero of each run of ten decimal digits of Unicode 14 (the
    characters of category Nd, as CPython 3.11 has them), by its encoding;
    the nine other digits of a run differ from it in the last byte only. *)
Definition DECIMAL_ZEROS : list string :=
  utf8 <$>
    [[48]; [217; 160]; [219; 176]; [223; 128]; [224; 165; 166];
     [224; 167; 166]; [224; 169; 166]; [224; 171; 166]; [224; 173; 166];
     [224; 175; 166]; [224; 177; 166]; [224; 179; 166]; [224; 181; 166];
     [224; 183; 166]; [224; 185; 144]; [224; 187; 144]; [224; 188; 160];
     [225; 129; 128]; [225; 130; 144]; [225; 159; 160]; [225; 160; 144];
     [225; 165; 134]; [225; 167; 144]; [225; 170; 128]; [225; 170; 144];
     [225; 173; 144]; [225; 174; 176]; [225; 177; 128]; [225; 177; 144];
     [234; 152; 160]; [234; 163; 144]; [234; 164; 128]; [234; 167; 144];
     [234; 167; 176]; [234; 169; 144]; [234; 175; 176]; [239; 188; 144];
     [240; 144; 146; 160]; [240; 144; 180; 176]; [240; 145; 129; 166];
     [240; 145; 131; 176]; [240; 145; 132; 182]; [240; 145; 135; 144];
     [240; 145; 139; 176]; [240; 145; 145; 144]; [240; 145; 147; 144];
     [240; 145; 153; 144]; [240; 145; 155; 128]; [240; 145; 156; 176];
     [240; 145; 163; 160]; [240; 145; 165; 144]; [240; 145; 177; 144];
     [240; 145; 181; 144]; [240; 145; 182; 160]; [240; 150; 169; 160];
     [240; 150; 171; 128]; [240; 150; 173; 144]; [240; 157; 159; 142];
     [240; 157; 159; 152]; [240; 157; 159; 162]; [240; 157; 159; 172];
     [240; 157; 159; 182]; [240; 158; 133; 128]; [240; 158; 139; 176];
     [240; 158; 165; 144]; [240; 159; 175; 176]]%nat.

(** What [int] reads a character as. *)
Inductive token : Type :=
| TDigit (d : Z)
| TUnderscore
| TPlus
| TMinus
| TSpace
| TOther.

(** The value of the digit [s] begins with, when that is a digit of the run
    whose zero is [zero], and the rest of [s]. *)
Fixpoint digit_of_run (zero s : string) : option (Z * string) :=
  match zero, s with
  | String z EmptyString, String c s' =>
      let d := Z.of_nat (Ascii.nat_of_ascii c) - Z.of_nat (Ascii.nat_of_ascii z) in
      if (0 <=? d) && (d <=? 9) then Some (d, s') else None
  | String z zero', String c s' =>
      if Ascii.eqb z c then digit_of_run zero' s' else None
  | _, _ => None
  end.

Fixpoint digit_prefix (zeros : list string) (s : string) : option (Z * string) :=
  match zeros with
  | [] => None
  | zero :: zeros' =>
      match digit_of_run zero s with
      | Some r => Some r
      | None => digit_prefix zeros' s
      end
  end.

Definition next_token (s : string) : option (token * string) :=
  match s with
  | EmptyString => None
  | String c s' =>
      match digit_prefix DECIMAL_ZEROS s with
      | Some (d, r) => Some (TDigit d, r)
      | None =>
          match drop_any INT_WHITESPACE s with
          | Some r => Some (TSpace, r)
          | None =>
              let n := Ascii.nat_of_ascii c in
              Some (if (n =? 95)%nat then TUnderscore
                    else if (n =? 43)%nat then TPlus
                    else if (n =? 45)%nat then TMinus
                    else TOther, s')
          end
      end
  end.

Fixpoint tokens_n (n : nat) (s : string) : list token :=
  match n with
  | O => []
  | S n' =>
      match next_token s with
      | Some (t, r) => t :: tokens_n n' r
      | None => []
      end
  end.

Definition tokens (s : string) : list token := tokens_n (String.length s) s.

Fixpoint skip_spaces (ts : list token) : list token :=
  match ts with
  | TSpace :: ts' => skip_spaces ts'
  | _ => ts
  end.

Definition trim (ts : list token) : list token :=
  rev (skip_spaces (rev (skip_spaces ts))).

(** CPython's limit on the digits of a literal ([sys.int_info]'s
    [default_max_str_digits]); signs, underscores and white space do not
    count. *)
Definition MAX_STR_DIGITS : nat := 4300.

(** Decimal digits, single underscores allowed between two digits. *)
Fixpoint number (ts : list token) (acc : Z) (count : nat) (after_digit : bool)
  : option Z :=
  match ts with
  | [] =>
      if after_digit && (count <=? MAX_STR_DIGITS)%nat then Some acc else None
  | TDigit d :: ts' => number ts' (10 * acc + d) (S count) true
  | TUnderscore :: ts' =>
      if after_digit then number ts' acc count false else None
  | _ => None
  end.

(** [int(s)] for a [str], base ten; [None] where Python raises
    [ValueError]. *)
Definition int_of_str (s : string) : option Z :=
  match trim (tokens s) with
  | TMinus :: ts => Z.opp <$> number ts 0 0 false
  | TPlus :: ts => number ts 0 0 false
  | ts => number ts 0 0 false
  end.

(** [int(obj)]; [None] where it raises ([TypeError] for [None], lists and
    dicts). *)
Definition int (obj : json) : option Z :=
  match obj with
  | JBool b => Some (if b then 1 else 0)
  | JInt z => Some z
  | JFloat f => int_of_float f
  | JStr s => int_of_str s
  | JNull | JList _ | JDict _ => None
  end.

(** [bool(obj)] as a JSON value *)
Definition bool_ (obj : json) : bool := truthy obj.

End Py.

Import Py.

(** What Flask answers by itself (no route, wrong method, or an exception
    that left the view): only the status is modelled. *)
Record response : Type := Response { body : json; status : Z }.

Definition flask_error (code : Z) : response := Response JNull code.

(** Flask's own answer to [OPTIONS] on a registered path. *)
Definition flask_options : response := Response JNull 200.

(** ** service-a: the credential authority *)
Module ServiceA.

Definition SERVICE_NAME : string := "service-a".

(** The keys of [METRICS]; the dictionary has exactly these, so it is a
    total map on them. *)
Inductive key : Type := requests_total | token_requests.

#[global] Instance provider_key_eq_dec : EqDecision key.
Proof. solve_decision. Defined.

Definition keys : list key := [requests_total; token_requests].

Definition key_name (k : key) : string :=
  match k with
  | requests_total => "requests_total"
  | token_requests => "token_requests"
  end.

Definition metrics : Type := key -> Z.

Definition METRICS : metrics := fun _ => 0.

(** [METRICS[k] += 1] *)
Definition incr (k : key) (m : metrics) : metrics :=
  fun k' => if decide (k' = k) then m k' + 1 else m k'.

(** [jsonify(METRICS)] *)
Definition jsonify_metrics (m : metrics) : json :=
  JDict (list_to_map ((fun k => (key_name k, JInt (m k))) <$> keys)).

(** An inbound request as the application meets it: what Flask's request
    object answers, and what the clock does while the request is handled:
    [sleep_raises ms] is the exception the platform raises for a sleep of
    [ms] milliseconds, if it refuses it. *)
Record request : Type := Request {
  method : string;
  path : string;
  get_json : option json;        (* request.get_json(silent=True) *)
  args : gmap string string;     (* request.args *)
  headers : gmap string string;  (* request.headers *)
  sleep_raises : Z -> option exc
}.

Definition log_json (level : string) (payload : gmap string json) : event :=
  PrintJson (<["level" := JStr level]> payload).

Definition log_request (req : request) (resp : response) (m : metrics)
  : response * metrics * list event :=
  let m := incr requests_total m in
  let req_id := default "" (headers req !! "X-Request-ID") in
  (resp, m,
   [log_json "INFO"
      {[ "service" := JStr SERVICE_NAME;
         "endpoint" := JStr (method req +:+ " " +:+ path req);
         "status" := JInt (status resp);
         "request_id" := JStr req_id ]}]).

Definition health : response := Response (JDict {[ "status" := JStr "ok" ]}) 200.

Definition metrics_view (m : metrics) : response :=
  Response (jsonify_metrics m) 200.

(** The longest sleep the interpreter's clock type holds, in milliseconds:
    [2^63] nanoseconds. *)
Definition SLEEP_LIMIT_MS : Z := 9223372036854.

(** The least integer that no [float] holds: it rounds to [2^1024]. *)
Definition FLOAT_LIMIT : Z := 2 ^ 1024 - 2 ^ 970.

(** [time.sleep(delay_ms / 1000.0)] for a positive [delay_ms].  Beyond the
    limit of the clock the expression raises [OverflowError]: the division
    does when the integer does not fit a [float], and the conversion of the
    quotient to the clock type does otherwise.  Up to the limit it sleeps,
    unless the platform refuses the duration. *)
Definition time_sleep (raises : Z -> option exc) (delay_ms : Z)
  : result (list event) :=
  if FLOAT_LIMIT <=? delay_ms
  then Raised (Exc OverflowError "int too large to convert to float")
  else if SLEEP_LIMIT_MS <? delay_ms
  then Raised (Exc OverflowError "timestamp too large to convert to C _PyTime_t")
  else match raises delay_ms with
       | Some e => Raised e
       | None => Ok [Sleep delay_ms]
       end.

Definition maybe_delay_from_query_or_json (raises : Z -> option exc)
    (delay_ms : Z) : result (list event) :=
  if truthy (JInt delay_ms) && (0 <? delay_ms)
  then time_sleep raises delay_ms
  else Ok [].

(** [request.get_json(silent=True) or {}] *)
Definition body_of (req : request) : json :=
  or_ (of_option (get_json req)) (JDict ∅).

(** The delay value [token] hands to [int]: the body's, else the query
    string's, else [0]. *)
Definition delay_value (req : request) (v : json) : json :=
  or_ (or_ v (of_option (JStr <$> args req !! "delay_ms"))) (JInt 0).

(** The body of [token] after the counter update: the response and the
    effects, or the exception that leaves the view. *)
Definition token_view (req : request) : result (response * list event) :=
  let body := body_of req in
  username ← (v ← Py.get body "username"; Py.strip (or_ v (JStr "")));
  password ← (v ← Py.get body "password"; mret (or_ v (JStr "")));
  delay_ms ← (v ← Py.get body "delay_ms"; mret (delay_value req v));
  let delay_ms := default 0 (Py.int delay_ms) in
  evs ← maybe_delay_from_query_or_json (sleep_raises req) delay_ms;
  if String.eqb username "divya" && eq_str password "pass123"
  then mret (Response (JDict {[ "token" := JStr ("token-" +:+ username);
                                "user" := JStr username ]}) 200, evs)
  else mret (Response (JDict {[ "error" := JStr "invalid credentials" ]}) 401,
             evs).

Definition token (req : request) (m : metrics)
  : result response * metrics * list event :=
  let m := incr token_requests m in
  match token_view req with
  | Ok (resp, evs) => (Ok resp, m, evs)
  | Raised e => (Raised e, m, [])
  end.

(** Routing, as registered with [app.get] and [app.post]: a route
    registered for [GET] serves [HEAD] with the same view, Flask answers
    [OPTIONS] on a registered path by itself, any other method gets 405 and
    any other path 404. *)
Definition dispatch (req : request) (m : metrics)
  : result response * metrics * list event :=
  if bool_decide (path req = "/health") then
    if bool_decide (method req = "GET") || bool_decide (method req = "HEAD")
    then (Ok health, m, [])
    else if bool_decide (method req = "OPTIONS") then (Ok flask_options, m, [])
    else (Ok (flask_error 405), m, [])
  else if bool_decide (path req = "/metrics") then
    if bool_decide (method req = "GET") || bool_decide (method req = "HEAD")
    then (Ok (metrics_view m), m, [])
    else if bool_decide (method req = "OPTIONS") then (Ok flask_options, m, [])
    else (Ok (flask_error 405), m, [])
  else if bool_decide (path req = "/token") then
    if bool_decide (method req = "POST") then token req m
    else if bool_decide (method req = "OPTIONS") then (Ok flask_options, m, [])
    else (Ok (flask_error 405), m, [])
  else (Ok (flask_error 404), m, []).

(** One request through the application: [start_timer] only reads the
    clock; an exception leaving the view becomes Flask's 500 response; then
    [log_request] runs. *)
Definition handle (req : request) (m : metrics)
  : response * metrics * list event :=
  let '(r, m, evs) := dispatch req m in
  let resp := match r with Ok resp => resp | Raised _ => flask_error 500 end in
  let '(resp, m, evs') := log_request req resp m in
  (resp, m, evs ++ evs').

(** The process serving a sequence of requests. *)
Fixpoint serve (reqs : list request) (m : metrics) : metrics :=
  match reqs with
  | [] => m
  | req :: reqs' => serve reqs' (handle req m).1.2
  end.

(** A [POST /token] request with the given JSON object as its body, on a
    platform that refuses no sleep up to the limit. *)
Definition post_token (d : gmap string json) : request :=
  Request "POST" "/token" (Some (JDict d)) ∅ ∅ (fun _ => None).

End ServiceA.

(** ** service-b: the consumer and its forwarder *)
Module ServiceB.

Definition SERVICE_NAME : string := "service-b".
Definition SERVICE_A : string := "http://127.0.0.1:8080".

(** [1.0], as the double it is. *)
Definition TIMEOUT_SECS : spec_float := S754_finite false 4503599627370496 (-52).

Inductive key : Type :=
| requests_total
| protected_action_requests
| provider_failures
| provider_timeouts
| provider_connection_errors
| provider_other_errors
| retries_used.

#[global] Instance consumer_key_eq_dec : EqDecision key.
Proof. solve_decision. Defined.

Definition keys : list key :=
  [requests_total; protected_action_requests; provider_failures;
   provider_timeouts; provider_connection_errors; provider_other_errors;
   retries_used].

Definition key_name (k : key) : string :=
  match k with
  | requests_total => "requests_total"
  | protected_action_requests => "protected_action_requests"
  | provider_failures => "provider_failures"
  | provider_timeouts => "provider_timeouts"
  | provider_connection_errors => "provider_connection_errors"
  | provider_other_errors => "provider_other_errors"
  | retries_used => "retries_used"
  end.

Definition metrics : Type := key -> Z.

Definition METRICS : metrics := fun _ => 0.

(** [METRICS[k] += 1] *)
Definition incr (k : key) (m : metrics) : metrics :=
  fun k' => if decide (k' = k) then m k' + 1 else m k'.

Definition jsonify_metrics (m : metrics) : json :=
  JDict (list_to_map ((fun k => (key_name k, JInt (m k))) <$> keys)).

Record request : Type := Request {
  method : string;
  path : string;
  get_json : option json;        (* request.get_json(silent=True) *)
  headers : gmap string string   (* request.headers *)
}.

Definition log_json (level : string) (payload : gmap string json) : event :=
  PrintJson (<["level" := JStr level]> payload).

Definition log_request (req : request) (resp : response) (m : metrics)
  : response * metrics * list event :=
  let m := incr requests_total m in
  let req_id := default "" (headers req !! "X-Request-ID") in
  (resp, m,
   [log_json "INFO"
      {[ "service" := JStr SERVICE_NAME;
         "endpoint" := JStr (method req +:+ " " +:+ path req);
         "status" := JInt (status resp);
         "request_id" := JStr req_id ]}]).

Definition health : response := Response (JDict {[ "status" := JStr "ok" ]}) 200.

Definition metrics_view (m : metrics) : response :=
  Response (jsonify_metrics m) 200.

(** *** The outbound call *)

(** The [requests.Response] of one call, as far as the forwarder looks at
    it: [http_error] is what [str] gives for the exception
    [raise_for_status] builds for this response; [json_body] is what
    [json] returns, [None] when it raises; and [decode_raises] is then what
    it raises: requests' [JSONDecodeError] for a body that is not JSON, and
    what the decoder lets through otherwise ([RecursionError] for a body
    nested too deep, [ValueError] for an integer beyond the digit limit). *)
Record provider_response : Type := ProviderResponse {
  status_code : Z;
  json_body : option json;
  http_error : string;
  decode_raises : exc
}.

(** What [requests.post] does on one attempt: it returns a response or
    raises. *)
Inductive post_outcome : Type :=
| Responds (r : provider_response)
| Throws (e : exc).

(** [r.raise_for_status()] *)
Definition raise_for_status (r : provider_response) : result unit :=
  if (400 <=? status_code r) && (status_code r <? 600)
  then Raised (Exc HTTPError (http_error r))
  else Ok tt.

(** [r.json()] *)
Definition json (r : provider_response) : result Py.json :=
  match json_body r with
  | Some j => Ok j
  | None => Raised (decode_raises r)
  end.

(** The failures the loop goes on after: the first two [except] clauses. *)
Definition retry_eligible (e : exc) : bool :=
  isinstance_Timeout e || isinstance_ConnectionError e.

(** The triple [call_provider_token] returns. *)
Definition outcome : Type := string * option Py.json * option string.

(** The [try] block of one attempt: the value it returns, or the exception
    the [except] clauses then see. *)
Definition try_block (o : post_outcome) : result outcome :=
  r ← match o with Responds r => Ok r | Throws e => Raised e end;
  if status_code r =? 401 then mret ("auth_failed", None, None)
  else _ ← raise_for_status r; j ← json r; mret ("ok", Some j, None).

Section call_provider_token.

Variables (username : string) (password : Py.json) (delay_ms : Z).
Variables (request_id : string) (enable_retry : bool).

(** The outcome of the outbound call made in iteration [attempt] of this
    run. *)
Variable net : nat -> post_outcome.

Definition url : string := SERVICE_A +:+ "/token".

Definition headers_out : gmap string string := {[ "X-Request-ID" := request_id ]}.

Definition payload : gmap string Py.json :=
  {[ "username" := JStr username; "password" := password;
     "delay_ms" := JInt delay_ms ]}.

Definition attempts : nat := if enable_retry then 2%nat else 1%nat.

Definition post : event := Post url payload headers_out TIMEOUT_SECS.

Definition log_timeout (attempt : nat) : event :=
  log_json "ERROR"
    {[ "service" := JStr SERVICE_NAME;
       "event" := JStr "provider_call_failed";
       "error" := JStr "timeout";
       "timeout_secs" := JFloat TIMEOUT_SECS;
       "attempt" := JInt (Z.of_nat attempt + 1);
       "request_id" := JStr request_id ]}.

Definition log_failure (error : string) (e : exc) (attempt : nat) : event :=
  log_json "ERROR"
    {[ "service" := JStr SERVICE_NAME;
       "event" := JStr "provider_call_failed";
       "error" := JStr error;
       "details" := JStr (exc_str e);
       "attempt" := JInt (Z.of_nat attempt + 1);
       "request_id" := JStr request_id ]}.

(** The statement after the [try]: [if enable_retry and attempt == 0]. *)
Definition backoff (attempt : nat) (m : metrics) : metrics * list event :=
  if enable_retry && Nat.eqb attempt 0
  then (incr retries_used m, [Sleep 50])
  else (m, []).

(** The [return] after the loop. *)
Definition provider_failed (last_exc : option exc) : outcome :=
  ("provider_failed", None,
   Some (match last_exc with Some e => exc_str e | None => "unknown error" end)).

(** [for attempt in range]: the loop over the remaining iterations. *)
Fixpoint for_attempt (range : list nat) (last_exc : option exc) (m : metrics)
  : result outcome * metrics * list event :=
  match range with
  | [] => (Ok (provider_failed last_exc), m, [])
  | attempt :: range' =>
      match try_block (net attempt) with
      | Ok t => (Ok t, m, [post])
      | Raised e =>
          if isinstance_Timeout e then
            let m := incr provider_timeouts (incr provider_failures m) in
            let '(m, pause) := backoff attempt m in
            let '(r, m, evs) := for_attempt range' (Some e) m in
            (r, m, post :: log_timeout attempt :: pause ++ evs)
          else if isinstance_ConnectionError e then
            let m := incr provider_connection_errors (incr provider_failures m) in
            let '(m, pause) := backoff attempt m in
            let '(r, m, evs) := for_attempt range' (Some e) m in
            (r, m, post :: log_failure "connection_error" e attempt :: pause ++ evs)
          else if isinstance_RequestException e then
            let m := incr provider_other_errors (incr provider_failures m) in
            (Ok (provider_failed (Some e)), m,
             [post; log_failure "request_exception" e attempt])
          else (Raised e, m, [post])
      end
  end.

Definition call_provider_token (m : metrics)
  : result outcome * metrics * list event :=
  for_attempt (seq 0 attempts) None m.

End call_provider_token.

(** *** The action endpoint *)

Record action_args : Type := ActionArgs {
  arg_username : string;
  arg_password : Py.json;
  arg_action : Py.json;
  arg_delay_ms : Z;
  arg_enable_retry : bool
}.

(** [v if v is not None else True] *)
Definition default_true (v : Py.json) : Py.json :=
  match v with JNull => JBool true | _ => v end.

(** The fields [protected_action] reads from the body, in its order. *)
Definition parse_body (body : Py.json) : result action_args :=
  username ← (v ← Py.get body "username"; Py.strip (or_ v (JStr "")));
  password ← (v ← Py.get body "password"; mret (or_ v (JStr "")));
  action ← (v ← Py.get body "action"; mret (or_ v (JStr "ping")));
  delay_ms ← (v ← Py.get body "delay_ms"; mret (or_ v (JInt 0)));
  let delay_ms := default 0 (Py.int delay_ms) in
  enable_retry ← (v ← Py.get body "retry"; mret (default_true v));
  let enable_retry := bool_ enable_retry in
  mret (ActionArgs username password action delay_ms enable_retry).

(** [request.headers.get("X-Request-ID") or str(uuid.uuid4())], where
    [uuid4] is the text the generator gives when it is asked. *)
Definition resolve_request_id (req : request) (uuid4 : string) : string :=
  match headers req !! "X-Request-ID" with
  | Some h => if truthy (JStr h) then h else uuid4
  | None => uuid4
  end.

Definition opt_str (o : option string) : Py.json :=
  match o with Some s => JStr s | None => JNull end.

(** The response [protected_action] builds from the forwarder's triple. *)
Definition render (action : Py.json) (request_id : string) (t : outcome)
  : result response :=
  let '(status, provider_json, err) := t in
  if String.eqb status "auth_failed" then
    mret (Response (JDict {[ "error" := JStr "invalid credentials" ]}) 401)
  else if negb (String.eqb status "ok") then
    mret (Response (JDict {[ "error" := JStr "provider unavailable";
                             "details" := opt_str err ]}) 503)
  else
    user ← Py.get (of_option provider_json) "user";
    token ← Py.get (of_option provider_json) "token";
    mret (Response (JDict {[ "consumer" := JStr "ok";
                             "action" := action;
                             "user" := user;
                             "token" := token;
                             "request_id" := JStr request_id ]}) 200).

(** [request.get_json(silent=True) or {}] *)
Definition body_of (req : request) : Py.json :=
  or_ (of_option (get_json req)) (JDict ∅).

Definition protected_action (req : request) (uuid4 : string)
    (net : nat -> post_outcome) (m : metrics)
  : result response * metrics * list event :=
  let m := incr protected_action_requests m in
  let body := body_of req in
  match parse_body body with
  | Raised e => (Raised e, m, [])
  | Ok a =>
      let request_id := resolve_request_id req uuid4 in
      let '(r, m, evs) :=
        call_provider_token (arg_username a) (arg_password a) (arg_delay_ms a)
          request_id (arg_enable_retry a) net m in
      (t ← r; render (arg_action a) request_id t, m, evs)
  end.

(** Routing, as in service-a. *)
Definition dispatch (req : request) (uuid4 : string)
    (net : nat -> post_outcome) (m : metrics)
  : result response * metrics * list event :=
  if bool_decide (path req = "/health") then
    if bool_decide (method req = "GET") || bool_decide (method req = "HEAD")
    then (Ok health, m, [])
    else if bool_decide (method req = "OPTIONS") then (Ok flask_options, m, [])
    else (Ok (flask_error 405), m, [])
  else if bool_decide (path req = "/metrics") then
    if bool_decide (method req = "GET") || bool_decide (method req = "HEAD")
    then (Ok (metrics_view m), m, [])
    else if bool_decide (method req = "OPTIONS") then (Ok flask_options, m, [])
    else (Ok (flask_error 405), m, [])
  else if bool_decide (path req = "/protected-action") then
    if bool_decide (method req = "POST") then protected_action req uuid4 net m
    else if bool_decide (method req = "OPTIONS") then (Ok flask_options, m, [])
    else (Ok (flask_error 405), m, [])
  else (Ok (flask_error 404), m, []).

Definition handle (req : request) (uuid4 : string)
    (net : nat -> post_outcome) (m : metrics)
  : response * metrics * list event :=
  let '(r, m, evs) := dispatch req uuid4 net m in
  let resp := match r with Ok resp => resp | Raised _ => flask_error 500 end in
  let '(resp, m, evs') := log_request req resp m in
  (resp, m, evs ++ evs').

(** An inbound request together with what its environment does during it:
    the identifier the generator would give and the outcomes of the
    outbound calls. *)
Record arrival : Type := Arrival {
  arr_request : request;
  arr_uuid4 : string;
  arr_net : nat -> post_outcome
}.

Fixpoint serve (arrs : list arrival) (m : metrics) : metrics :=
  match arrs with
  | [] => m
  | a :: arrs' =>
      serve arrs' (handle (arr_request a) (arr_uuid4 a) (arr_net a) m).1.2
  end.

(** A [POST /protected-action] request with a JSON object as body and no
    correlation header. *)
Definition post_action (d : gmap string Py.json) : request :=
  Request "POST" "/protected-action" (Some (JDict d)) ∅.

End ServiceB.

(** ** Sample requests and provider behaviours *)
Module Sample.

Import ServiceB.

Definition credentials : gmap string Py.json :=
  {[ "username" := JStr "divya"; "password" := JStr "pass123" ]}.

(** The fixed pair with white space around the username. *)
Definition padded_credentials : gmap string Py.json :=
  {[ "username" := JStr " divya "; "password" := JStr "pass123" ]}.

(** The fixed pair with white space before the password. *)
Definition padded_password : gmap string Py.json :=
  {[ "username" := JStr "divya"; "password" := JStr " pass123" ]}.

(** A body whose username is a JSON number. *)
Definition numeric_username : gmap string Py.json :=
  {[ "username" := JInt 123; "password" := JStr "pass123" ]}.

(** A body whose delay is not a number. *)
Definition bad_delay : gmap string Py.json :=
  {[ "username" := JStr "divya"; "password" := JStr "pass123";
     "delay_ms" := JStr "soon" ]}.

Definition uuid : string := "3f2b8c1e-5d4a-4e6f-9a7b-0c1d2e3f4a5b".

(** What [Response.json] raises on a body that is not JSON. *)
Definition not_json : exc :=
  Exc JSONDecodeError "Expecting value: line 1 column 1 (char 0)".

Definition granted : provider_response :=
  ProviderResponse 200
    (Some (JDict {[ "token" := JStr "token-divya"; "user" := JStr "divya" ]}))
    EmptyString not_json.

Definition rejected : provider_response :=
  ProviderResponse 401
    (Some (JDict {[ "error" := JStr "invalid credentials" ]}))
    "401 Client Error: UNAUTHORIZED for url: http://127.0.0.1:8080/token"
    not_json.

Definition server_error : provider_response :=
  ProviderResponse 500 None
    "500 Server Error: INTERNAL SERVER ERROR for url: http://127.0.0.1:8080/token"
    not_json.



Definition timed_out : exc :=
  Exc ReadTimeout
    "HTTPConnectionPool(host='127.0.0.1', port=8080): Read timed out. (read timeout=1.0)".

Definition refused : exc :=
  Exc ConnectionError
    "HTTPConnectionPool(host='127.0.0.1', port=8080): Max retries exceeded with url: /token".

(** Provider behaviours over one run. *)
Definition always (o : post_outcome) : nat -> post_outcome := fun _ => o.

Definition first_then (o0 o1 : post_outcome) : nat -> post_outcome :=
  fun attempt => match attempt with O => o0 | S _ => o1 end.

(** A [POST /protected-action] request that carries an [X-Request-ID]
    header. *)
Definition action_with_id (d : gmap string Py.json) (rid : string) : request :=
  Request "POST" "/protected-action" (Some (JDict d)) {[ "X-Request-ID" := rid ]}.

(** Further sample requests and provider answers. *)
Definition health_request : ServiceA.request :=
  ServiceA.Request "GET" "/health" None ∅ ∅ (fun _ => None).

Definition metrics_request : request := Request "GET" "/metrics" None ∅.

(** A delay given as text. *)
Definition delayed : gmap string Py.json :=
  {[ "username" := JStr "x"; "delay_ms" := JStr "1500" ]}.

(** The body says no delay, the query string says half a second. *)
Definition zero_delay_with_query : ServiceA.request :=
  ServiceA.Request "POST" "/token"
    (Some (JDict {[ "username" := JStr "divya"; "password" := JStr "pass123";
                    "delay_ms" := JInt 0 ]}))
    {[ "delay_ms" := "500" ]} ∅ (fun _ => None).

(** The fixed pair with a delay no clock holds. *)
Definition huge_delay : gmap string Py.json :=
  {[ "username" := JStr "divya"; "password" := JStr "pass123";
     "delay_ms" := JInt (10 ^ 16) ]}.


(** The fixed pair with a delay of two seconds. *)
Definition slow : gmap string Py.json :=
  {[ "username" := JStr "divya"; "password" := JStr "pass123";
     "delay_ms" := JInt 2000 ]}.


(** The retry flag given as the text [false]. *)
Definition retry_as_text : gmap string Py.json :=
  {[ "username" := JStr "divya"; "password" := JStr "pass123";
     "retry" := JStr "false" ]}.

(** Status 200 with a JSON array as body. *)
Definition array_reply : provider_response :=
  ProviderResponse 200 (Some (JList [])) EmptyString not_json.

(** Status 200 with an object that has no token. *)
Definition user_only : provider_response :=
  ProviderResponse 200 (Some (JDict {[ "user" := JStr "divya" ]}))
    EmptyString not_json.

End Sample.

(** ** Observations the further properties are stated with *)
Module Observe.

Import ServiceB.

Definition is_print (ev : event) : bool :=
  match ev with PrintJson _ => true | _ => false end.

(** The number of records printed among the effects of a run. *)
Definition prints (evs : list event) : nat := length (List.filter is_print evs).

(** The text [(body.get("username") or "")] evaluates to when that is a
    [str], for a body that is a [dict]; [None] when either fails. *)
Definition string_username (body : Py.json) : option string :=
  match body with
  | JDict d =>
      match or_ (of_option (d !! "username")) (JStr "") with
      | JStr u => Some u
      | _ => None
      end
  | _ => None
  end.

(** The requests the two applications route to [token] and to
    [protected_action]. *)
Definition routes_to_token (req : ServiceA.request) : bool :=
  bool_decide (ServiceA.path req = "/token")
  && bool_decide (ServiceA.method req = "POST").

Definition routes_to_action (req : request) : bool :=
  bool_decide (path req = "/protected-action")
  && bool_decide (method req = "POST").

(** A text made of characters from [ps] only. *)
Inductive run_of (ps : list string) : string -> Prop :=
| run_nil : run_of ps EmptyString
| run_cons p s : In p ps -> run_of ps s -> run_of ps (p +:+ s).

(** No text of [ps] is the beginning of another, and none is empty: a text
    is then a run of them in at most one way. *)
Definition prefix_free (ps : list string) : bool :=
  forallb (fun p =>
             negb (String.eqb p EmptyString)
             && forallb (fun q =>
                           String.eqb p q
                           || match drop_prefix p q with
                              | Some _ => false
                              | None => true
                              end) ps) ps.

(** The delay [token] works with, for a body that is the [dict] [d]. *)
Definition parsed_delay (req : ServiceA.request) (d : gmap string Py.json) : Z :=
  default 0 (Py.int (ServiceA.delay_value req (of_option (d !! "delay_ms")))).

(** The delay step of [token] has nothing to sleep, or its sleep is within
    the limit of the clock and the platform does not refuse it. *)
Definition sleep_returns (req : ServiceA.request) (delay_ms : Z) : Prop :=
  delay_ms <= 0
  \/ (delay_ms <= ServiceA.SLEEP_LIMIT_MS
      /\ ServiceA.sleep_raises req delay_ms = None).

(** The milliseconds slept among the effects of a run. *)
Definition slept (evs : list event) : Z :=
  foldr (fun ev z => match ev with Sleep ms => ms + z | _ => z end) 0 evs.

(** How the failure counters of the consumer relate to one another. *)
Definition accounted (m : metrics) : Prop :=
  m provider_failures
  = m provider_timeouts + m provider_connection_errors
    + m provider_other_errors
  /\ m retries_used <= m provider_timeouts + m provider_connection_errors
  /\ m retries_used <= m protected_action_requests
  /\ m provider_failures <= 2 * m protected_action_requests.

End Observe.

(** ** The consumer's call delivered to the provider

    [call_provider_token] posts to [SERVICE_A ++ "/token"], the address and
    route service-a serves.  [delivered] is what the consumer's call can
    come back with when it reaches service-a's [token] and nothing but the
    provider's own sleep stands between the two: the status and JSON body
    [token] returns, when it slept less than the consumer's timeout of one
    second; a read timeout, when it slept at all; and Flask's 500 page,
    which is not JSON, when [token] raised. *)
Module Loopback.

Import ServiceB.

Definition token_request (raises : Z -> option exc) (pl : gmap string Py.json)
    (hs : gmap string string) : ServiceA.request :=
  ServiceA.Request "POST" "/token" (Some (JDict pl)) ∅ hs raises.

Inductive delivered (pl : gmap string Py.json) (hs : gmap string string)
  : post_outcome -> Prop :=
| answered raises ma resp ma' evs r :
    ServiceA.token (token_request raises pl hs) ma = (Ok resp, ma', evs) ->
    Observe.slept evs < 1000 ->
    status_code r = status resp ->
    json_body r = Some (body resp) ->
    delivered pl hs (Responds r)
| timed_out raises ma resp ma' evs e :
    ServiceA.token (token_request raises pl hs) ma = (Ok resp, ma', evs) ->
    0 < Observe.slept evs ->
    exc_type e = ReadTimeout ->
    delivered pl hs (Throws e)
| failed raises ma e0 ma' evs r :
    ServiceA.token (token_request raises pl hs) ma = (Raised e0, ma', evs) ->
    status_code r = 500 ->
    json_body r = None ->
    delivered pl hs (Responds r).

End Loopback.

(** ** Proof steps shared by the properties *)

Import ServiceB.

(** Case analysis on what an attempt did: the [try] block returned, or one
    of the [except] clauses caught the error, or none did. *)
Ltac case_attempt :=
  match goal with
  | |- context [try_block (?net ?a)] =>
      let H := fresh "Htry" in
      destruct (try_block (net a)) as [?t|?e] eqn:H; simpl
  | |- context [isinstance_Timeout ?e] =>
      let H := fresh "Htimeout" in
      destruct (isinstance_Timeout e) eqn:H; simpl
  | |- context [isinstance_ConnectionError ?e] =>
      let H := fresh "Hconn" in
      destruct (isinstance_ConnectionError e) eqn:H; simpl
  | |- context [isinstance_RequestException ?e] =>
      let H := fresh "Hreq" in
      destruct (isinstance_RequestException e) eqn:H; simpl
  end.

Ltac run_cases enable_retry :=
  unfold call_provider_token; destruct enable_retry; simpl;
  repeat case_attempt.

(** * Properties *)

(** ** Counters *)

Lemma incr_same_A (k : ServiceA.key) m : ServiceA.incr k m k = m k + 1.
Proof. unfold ServiceA.incr. by rewrite decide_True. Qed.

Lemma incr_mono_A (k k' : ServiceA.key) m : m k' <= ServiceA.incr k m k'.
Proof. unfold ServiceA.incr. case_decide; lia. Qed.

Lemma incr_mono_B (k k' : ServiceB.key) m : m k' <= ServiceB.incr k m k'.
Proof. unfold ServiceB.incr. case_decide; lia. Qed.

(** ** The forwarder, one iteration at a time *)

Import ServiceB.

Lemma try_block_401 r :
  status_code r = 401 -> try_block (Responds r) = Ok ("auth_failed", None, None).
Proof. intros H. unfold try_block. simpl. by rewrite H. Qed.

Lemma try_block_ok r j :
  status_code r = 200 -> json_body r = Some j ->
  try_block (Responds r) = Ok ("ok", Some j, None).
Proof.
  intros Hs Hj. unfold try_block, raise_for_status, json. simpl.
  by rewrite Hs, Hj.
Qed.


Section iteration.

Variables (username : string) (password : Py.json) (delay_ms : Z).
Variables (request_id : string) (enable_retry : bool).
Variable net : nat -> post_outcome.

Abbreviation loop := (for_attempt username password delay_ms request_id enable_retry net).
Abbreviation the_post := (post username password delay_ms request_id).

Lemma for_attempt_returns attempt range last_exc m t :
  try_block (net attempt) = Ok t ->
  loop (attempt :: range) last_exc m = (Ok t, m, [the_post]).
Proof. intros H. simpl. by rewrite H. Qed.

Lemma for_attempt_timeout attempt range last_exc m e :
  try_block (net attempt) = Raised e ->
  isinstance_Timeout e = true ->
  loop (attempt :: range) last_exc m =
    let '(m1, pause) :=
      backoff enable_retry attempt
        (incr provider_timeouts (incr provider_failures m)) in
    let '(r, m2, evs) := loop range (Some e) m1 in
    (r, m2, the_post :: log_timeout request_id attempt :: pause ++ evs).
Proof. intros H Ht. simpl. by rewrite H, Ht. Qed.

Lemma for_attempt_connection attempt range last_exc m e :
  try_block (net attempt) = Raised e ->
  isinstance_Timeout e = false ->
  isinstance_ConnectionError e = true ->
  loop (attempt :: range) last_exc m =
    let '(m1, pause) :=
      backoff enable_retry attempt
        (incr provider_connection_errors (incr provider_failures m)) in
    let '(r, m2, evs) := loop range (Some e) m1 in
    (r, m2,
     the_post :: log_failure request_id "connection_error" e attempt
       :: pause ++ evs).
Proof. intros H Ht Hc. simpl. by rewrite H, Ht, Hc. Qed.

Lemma for_attempt_other attempt range last_exc m e :
  try_block (net attempt) = Raised e ->
  isinstance_Timeout e = false ->
  isinstance_ConnectionError e = false ->
  isinstance_RequestException e = true ->
  loop (attempt :: range) last_exc m =
    (Ok (provider_failed (Some e)),
     incr provider_other_errors (incr provider_failures m),
     [the_post; log_failure request_id "request_exception" e attempt]).
Proof. intros H Ht Hc Hr. simpl. by rewrite H, Ht, Hc, Hr. Qed.

End iteration.

(** ** Claims about the forwarder *)

(** C1.  An attempt whose call comes back with status 401 ends the run with
    ["auth_failed"] at once: in whichever iteration it happens and however
    many iterations are left, the loop returns with [METRICS] as that
    iteration found it and with the one outbound call of that iteration as
    its only effect (no log record, no sleep, no further call).  So a 401
    on the first attempt leaves every counter untouched after exactly one
    call, and a 401 on the second attempt, after a retried failure, ends
    the run after exactly two calls. *)
Theorem auth_rejection_short_circuits :
  forall username password delay_ms request_id enable_retry net r,
    status_code r = 401 ->
    (forall attempt range last_exc m,
        net attempt = Responds r ->
        for_attempt username password delay_ms request_id enable_retry net
          (attempt :: range) last_exc m
        = (Ok ("auth_failed", None, None), m,
           [post username password delay_ms request_id]))
    /\ (forall m,
        net 0%nat = Responds r ->
        call_provider_token username password delay_ms request_id
          enable_retry net m
        = (Ok ("auth_failed", None, None), m,
           [post username password delay_ms request_id]))
    /\ (forall m e,
        enable_retry = true ->
        try_block (net 0%nat) = Raised e ->
        retry_eligible e = true ->
        net 1%nat = Responds r ->
        let '(res, m', evs) :=
          call_provider_token username password delay_ms request_id
            enable_retry net m in
        res = Ok ("auth_failed", None, None)
        /\ posts evs = 2%nat
        /\ m' provider_failures = m provider_failures + 1
        /\ m' provider_other_errors = m provider_other_errors).
Proof.
  intros username password delay_ms request_id enable_retry net r H401.
  assert (Hloop : forall attempt range last_exc m,
             net attempt = Responds r ->
             for_attempt username password delay_ms request_id enable_retry net
               (attempt :: range) last_exc m
             = (Ok ("auth_failed", None, None), m,
                [post username password delay_ms request_id])).
  { intros attempt range last_exc m Hnet.
    apply for_attempt_returns. rewrite Hnet. by apply try_block_401. }
  split; [exact Hloop|]. split.
  - intros m Hnet. unfold call_provider_token.
    destruct enable_retry; simpl seq; by apply Hloop.
  - intros m e -> H0 He H1. unfold call_provider_token. simpl seq.
    unfold retry_eligible in He.
    destruct (isinstance_Timeout e) eqn:Ht.
    + rewrite (for_attempt_timeout _ _ _ _ _ _ _ _ _ _ _ H0 Ht).
      unfold backoff. simpl andb. cbv iota beta. rewrite (Hloop _ _ _ _ H1).
      repeat split; reflexivity.
    + simpl in He.
      rewrite (for_attempt_connection _ _ _ _ _ _ _ _ _ _ _ H0 Ht He).
      unfold backoff. simpl andb. cbv iota beta. rewrite (Hloop _ _ _ _ H1).
      repeat split; reflexivity.
Qed.

(** One retried iteration, whichever of the two clauses caught the error:
    one call, one log record, the pause, then the rest of the loop; the
    failure counter and exactly one of the two transient-class counters
    went up by one. *)
Lemma for_attempt_retried username password delay_ms request_id enable_retry
    net attempt range last_exc m e :
  try_block (net attempt) = Raised e ->
  retry_eligible e = true ->
  exists m1 log,
    for_attempt username password delay_ms request_id enable_retry net
      (attempt :: range) last_exc m
    = (let '(m1', pause) := backoff enable_retry attempt m1 in
       let '(r, m2, evs) :=
         for_attempt username password delay_ms request_id enable_retry net
           range (Some e) m1' in
       (r, m2,
        post username password delay_ms request_id :: log :: pause ++ evs))
    /\ is_post log = false /\ is_sleep log = false
    /\ m1 provider_failures = m provider_failures + 1
    /\ m1 provider_timeouts + m1 provider_connection_errors
       = m provider_timeouts + m provider_connection_errors + 1
    /\ m1 provider_timeouts
       = m provider_timeouts + (if isinstance_Timeout e then 1 else 0)
    /\ m1 provider_other_errors = m provider_other_errors
    /\ m1 retries_used = m retries_used
    /\ m1 requests_total = m requests_total
    /\ m1 protected_action_requests = m protected_action_requests.
Proof.
  intros H He. unfold retry_eligible in He.
  destruct (isinstance_Timeout e) eqn:Ht.
  - eexists _, _. split; [by apply for_attempt_timeout|].
    repeat split; unfold incr; simpl; lia.
  - simpl in He. eexists _, _. split; [by apply for_attempt_connection|].
    repeat split; unfold incr; simpl; lia.
Qed.

(** C2.  With retry enabled, a first attempt that fails with a request
    exception that is neither a timeout nor a connection failure ends the
    run: one outbound call and one log record are the only effects (no
    second call, no sleep), [provider_failures] and [provider_other_errors]
    each go up by exactly one, [retries_used] and the two transient-class
    counters stay, and the run returns ["provider_failed"] with the text of
    that error. *)
Theorem other_error_is_not_retried :
  forall username password delay_ms request_id net m e,
    try_block (net 0%nat) = Raised e ->
    retry_eligible e = false ->
    isinstance_RequestException e = true ->
    let '(res, m', evs) :=
      call_provider_token username password delay_ms request_id true net m in
    res = Ok ("provider_failed", None, Some (exc_str e))
    /\ evs = [post username password delay_ms request_id;
              log_failure request_id "request_exception" e 0]
    /\ posts evs = 1%nat
    /\ sleeps evs = 0%nat
    /\ m' provider_failures = m provider_failures + 1
    /\ m' provider_other_errors = m provider_other_errors + 1
    /\ m' retries_used = m retries_used
    /\ m' provider_timeouts = m provider_timeouts
    /\ m' provider_connection_errors = m provider_connection_errors.
Proof.
  intros username password delay_ms request_id net m e H He Hr.
  unfold retry_eligible in He. apply orb_false_iff in He as [Ht Hc].
  unfold call_provider_token. simpl seq.
  rewrite (for_attempt_other _ _ _ _ _ _ _ _ _ _ _ H Ht Hc Hr).
  repeat split.
Qed.

(** An unexpected error status is such a failure: [raise_for_status] turns
    it into an [HTTPError]. *)
Lemma try_block_http_error r :
  status_code r <> 401 -> 400 <= status_code r < 600 ->
  try_block (Responds r) = Raised (Exc HTTPError (http_error r)).
Proof.
  intros Hne [Hlo Hhi]. unfold try_block, raise_for_status. simpl.
  destruct (Z.eqb_spec (status_code r) 401) as [|_]; [done|].
  destruct (Z.leb_spec 400 (status_code r)); [|lia].
  destruct (Z.ltb_spec (status_code r) 600); [|lia]. reflexivity.
Qed.

(** So is a response whose status passes but whose body does not decode. *)
Lemma try_block_decode_error r :
  status_code r <> 401 -> ~ 400 <= status_code r < 600 ->
  json_body r = None ->
  try_block (Responds r) = Raised (decode_raises r).
Proof.
  intros Hne Hout Hj. unfold try_block, raise_for_status, json. simpl.
  destruct (Z.eqb_spec (status_code r) 401) as [|_]; [done|].
  rewrite Hj.
  destruct (Z.leb_spec 400 (status_code r));
    destruct (Z.ltb_spec (status_code r) 600); try reflexivity; lia.
Qed.

(** C3, the forwarder's part: when every attempt of a run fails with a
    retry-eligible error, the run returns ["provider_failed"] with the text
    of the last of them, makes [attempts] calls, and the timeout and
    connection-error counters together go up by [attempts]. *)
Lemma exhaustion_in_forwarder username password delay_ms request_id
    enable_retry net m e0 e1 :
  try_block (net 0%nat) = Raised e0 ->
  retry_eligible e0 = true ->
  (enable_retry = true ->
   try_block (net 1%nat) = Raised e1 /\ retry_eligible e1 = true) ->
  let last := if enable_retry then e1 else e0 in
  let '(res, m', evs) :=
    call_provider_token username password delay_ms request_id enable_retry
      net m in
  res = Ok ("provider_failed", None, Some (exc_str last))
  /\ posts evs = attempts enable_retry
  /\ (m' provider_timeouts - m provider_timeouts)
     + (m' provider_connection_errors - m provider_connection_errors)
     = Z.of_nat (attempts enable_retry)
  /\ m' provider_failures - m provider_failures
     = Z.of_nat (attempts enable_retry)
  /\ m' provider_other_errors = m provider_other_errors
  /\ m' protected_action_requests = m protected_action_requests.
Proof.
  intros H0 He0 H1. unfold call_provider_token.
  destruct enable_retry; simpl seq; simpl attempts.
  - destruct (H1 eq_refl) as [H1' He1].
    destruct (for_attempt_retried username password delay_ms request_id true
                net 0 [1%nat] None m e0 H0 He0)
      as (m1 & log0 & -> & Hp0 & Hs0 & Hf0 & Htc0 & _ & Ho0 & _ & _ & Ha0).
    unfold backoff. simpl andb. cbv iota beta.
    destruct (for_attempt_retried username password delay_ms request_id true
                net 1 [] (Some e0) (incr retries_used m1) e1 H1' He1)
      as (m2 & log1 & -> & Hp1 & Hs1 & Hf1 & Htc1 & _ & Ho1 & _ & _ & Ha1).
    unfold backoff. simpl andb. cbv iota beta. simpl for_attempt.
    unfold incr in *. simpl in *.
    repeat split; try lia.
    unfold posts. simpl. rewrite Hp0, Hp1. reflexivity.
  - destruct (for_attempt_retried username password delay_ms request_id false
                net 0 [] None m e0 H0 He0)
      as (m1 & log0 & -> & Hp0 & Hs0 & Hf0 & Htc0 & _ & Ho0 & _ & _ & Ha0).
    unfold backoff. simpl andb. cbv iota beta. simpl for_attempt.
    repeat split; try lia.
    unfold posts. simpl. rewrite Hp0. reflexivity.
Qed.

(** Once the body parsed, [protected_action] is the forwarder's run under
    the resolved correlation id, rendered. *)
Lemma protected_action_parsed req uuid4 net m a :
  parse_body (body_of req) = Ok a ->
  protected_action req uuid4 net m
  = (let rid := resolve_request_id req uuid4 in
     let '(r, m', evs) :=
       call_provider_token (arg_username a) (arg_password a) (arg_delay_ms a)
         rid (arg_enable_retry a) net (incr protected_action_requests m) in
     (t ← r; render (arg_action a) rid t, m', evs)).
Proof. intros H. unfold protected_action. by rewrite H. Qed.

(** C3.  When every attempt of a run fails with a retry-eligible error
    (timeout or connection failure), [call_provider_token] returns
    ["provider_failed"] with the text of the last error, the endpoint
    answers 503 with that text as [details], and over the run the timeout
    and connection-error counters together (and [provider_failures]) went
    up by the number of attempts: 2 with retry, 1 without. *)
Theorem transient_exhaustion_gives_503 :
  forall req uuid4 net m a e0 e1,
    parse_body (body_of req) = Ok a ->
    try_block (net 0%nat) = Raised e0 ->
    retry_eligible e0 = true ->
    (arg_enable_retry a = true ->
     try_block (net 1%nat) = Raised e1 /\ retry_eligible e1 = true) ->
    let last := if arg_enable_retry a then e1 else e0 in
    let n := attempts (arg_enable_retry a) in
    (call_provider_token (arg_username a) (arg_password a) (arg_delay_ms a)
       (resolve_request_id req uuid4) (arg_enable_retry a) net m).1.1
    = Ok ("provider_failed", None, Some (exc_str last))
    /\ n = (if arg_enable_retry a then 2%nat else 1%nat)
    /\ let '(resp, m', evs) := protected_action req uuid4 net m in
       resp = Ok (Response
                    (JDict {[ "error" := JStr "provider unavailable";
                              "details" := JStr (exc_str last) ]}) 503)
       /\ posts evs = n
       /\ (m' provider_timeouts - m provider_timeouts)
          + (m' provider_connection_errors - m provider_connection_errors)
          = Z.of_nat n
       /\ m' provider_failures - m provider_failures = Z.of_nat n
       /\ m' provider_other_errors = m provider_other_errors.
Proof.
  intros req uuid4 net m a e0 e1 Hp H0 He0 H1 last n.
  split; [|split; [reflexivity|]].
  - pose proof (exhaustion_in_forwarder (arg_username a) (arg_password a)
                  (arg_delay_ms a) (resolve_request_id req uuid4)
                  (arg_enable_retry a) net m e0 e1 H0 He0 H1) as HF.
    destruct (call_provider_token _ _ _ _ _ _ _) as [[res m1] evs].
    simpl in HF. by destruct HF as (-> & _).
  - rewrite (protected_action_parsed _ _ _ _ _ Hp). cbv zeta.
    pose proof (exhaustion_in_forwarder (arg_username a) (arg_password a)
                  (arg_delay_ms a) (resolve_request_id req uuid4)
                  (arg_enable_retry a) net (incr protected_action_requests m)
                  e0 e1 H0 He0 H1) as HF.
    destruct (call_provider_token _ _ _ _ _ _ _) as [[res m1] evs].
    simpl in HF. destruct HF as (-> & Hposts & Htc & Hf & Ho & _).
    unfold incr in Htc, Hf, Ho. simpl in Htc, Hf, Ho.
    repeat split; try assumption.
Qed.

(** C4.  With retry enabled, a timeout on the first attempt followed by a
    200 response whose body is an object with a token and a user gives
    ["ok"] with that object; the effects are the first call, its log
    record, one sleep of 50 ms and the second call; [provider_timeouts],
    [provider_failures] and [retries_used] each went up by exactly one and
    the other forwarder counters stayed; the endpoint renders the provider's
    token and user in its 200 response. *)
Theorem timeout_then_success :
  forall username password delay_ms request_id net m e r dj token user action,
    net 0%nat = Throws e ->
    isinstance_Timeout e = true ->
    net 1%nat = Responds r ->
    status_code r = 200 ->
    json_body r = Some (JDict dj) ->
    dj !! "token" = Some token ->
    dj !! "user" = Some user ->
    let '(res, m', evs) :=
      call_provider_token username password delay_ms request_id true net m in
    res = Ok ("ok", Some (JDict dj), None)
    /\ evs = [post username password delay_ms request_id;
              log_timeout request_id 0;
              Sleep 50;
              post username password delay_ms request_id]
    /\ m' provider_timeouts = m provider_timeouts + 1
    /\ m' provider_failures = m provider_failures + 1
    /\ m' retries_used = m retries_used + 1
    /\ m' provider_connection_errors = m provider_connection_errors
    /\ m' provider_other_errors = m provider_other_errors
    /\ render action request_id ("ok", Some (JDict dj), None)
       = Ok (Response
               (JDict {[ "consumer" := JStr "ok";
                         "action" := action;
                         "user" := user;
                         "token" := token;
                         "request_id" := JStr request_id ]}) 200).
Proof.
  intros username password delay_ms request_id net m e r dj token user action
         H0 Ht H1 Hs Hj Htok Husr.
  unfold call_provider_token. simpl seq.
  assert (Hraise : try_block (net 0%nat) = Raised e) by (by rewrite H0).
  rewrite (for_attempt_timeout _ _ _ _ _ _ _ _ _ _ _ Hraise Ht).
  unfold backoff. simpl andb. cbv iota beta.
  assert (Hok : try_block (net 1%nat) = Ok ("ok", Some (JDict dj), None)).
  { rewrite H1. by apply try_block_ok. }
  rewrite (for_attempt_returns _ _ _ _ _ _ _ _ _ _ _ Hok).
  repeat split.
  unfold render. simpl. by rewrite Husr, Htok.
Qed.





(** ** Claims about the action endpoint *)

Lemma or_str_default u : or_ (JStr u) (JStr "") = JStr u.
Proof. by destruct u. Qed.

(** A body whose username is a string (or is missing or false, and so
    replaced by the empty string) parses, field by field as the handler
    reads it. *)
Lemma parse_body_string_username d u :
  or_ (of_option (d !! "username")) (JStr "") = JStr u ->
  parse_body (JDict d)
  = Ok (ActionArgs
          (str_strip u)
          (or_ (of_option (d !! "password")) (JStr ""))
          (or_ (of_option (d !! "action")) (JStr "ping"))
          (default 0 (Py.int (or_ (of_option (d !! "delay_ms")) (JInt 0))))
          (bool_ (default_true (of_option (d !! "retry"))))).
Proof. intros Hu. unfold parse_body. simpl. rewrite Hu. reflexivity. Qed.

(** Every effect of the loop is the run's one outbound call, repeated, or
    is no call at all. *)
Lemma for_attempt_events username password delay_ms request_id enable_retry
    net range :
  forall last_exc m,
    Forall (fun ev => ev = post username password delay_ms request_id
                      \/ is_post ev = false)
      (for_attempt username password delay_ms request_id enable_retry net
         range last_exc m).2.
Proof.
  induction range as [|attempt range IH]; intros last_exc m; simpl.
  - constructor.
  - destruct (try_block (net attempt)) as [t|e]; simpl.
    { constructor; [by left|constructor]. }
    destruct (isinstance_Timeout e).
    { destruct (backoff _ _ _) as [m1 pause] eqn:Hb.
      specialize (IH (Some e) m1).
      destruct (for_attempt _ _ _ _ _ _ range (Some e) m1) as [[r' m2] evs].
      simpl in *. constructor; [by left|]. constructor; [by right|].
      apply Forall_app. split; [|exact IH].
      unfold backoff in Hb. destruct (enable_retry && Nat.eqb attempt 0);
        injection Hb as <- <-; [|constructor].
      constructor; [by right|constructor]. }
    destruct (isinstance_ConnectionError e).
    { destruct (backoff _ _ _) as [m1 pause] eqn:Hb.
      specialize (IH (Some e) m1).
      destruct (for_attempt _ _ _ _ _ _ range (Some e) m1) as [[r' m2] evs].
      simpl in *. constructor; [by left|]. constructor; [by right|].
      apply Forall_app. split; [|exact IH].
      unfold backoff in Hb. destruct (enable_retry && Nat.eqb attempt 0);
        injection Hb as <- <-; [|constructor].
      constructor; [by right|constructor]. }
    destruct (isinstance_RequestException e); simpl.
    + constructor; [by left|]. constructor; [by right|]. constructor.
    + constructor; [by left|constructor].
Qed.

(** The effects of [protected_action] are those of the forwarder's run
    under the resolved correlation id. *)
Lemma protected_action_events req uuid4 net m :
  Forall (fun ev =>
            (exists username password delay_ms,
                ev = post username password delay_ms
                       (resolve_request_id req uuid4))
            \/ is_post ev = false)
    (protected_action req uuid4 net m).2.
Proof.
  unfold protected_action.
  destruct (parse_body (body_of req)) as [a|e]; simpl; [|constructor].
  pose proof (for_attempt_events (arg_username a) (arg_password a)
                (arg_delay_ms a) (resolve_request_id req uuid4)
                (arg_enable_retry a) net
                (seq 0 (attempts (arg_enable_retry a))) None
                (incr protected_action_requests m)) as H.
  unfold call_provider_token.
  destruct (for_attempt _ _ _ _ _ _ _ _ _) as [[r m'] evs]. simpl in *.
  eapply Forall_impl; [exact H|]. intros ev [->|Hnp]; [left|by right].
  eauto.
Qed.

(** C7, as the code has it.  The correlation id of a run is the inbound
    [X-Request-ID] header when that is present and not empty, and the
    freshly generated identifier when the header is absent or empty.
    Every outbound call of the run carries that id as its [X-Request-ID]
    header, and a 200 response carries it as [request_id]. *)
Theorem request_id_propagates :
  forall req uuid4 net m,
    let rid := resolve_request_id req uuid4 in
    (forall h, headers req !! "X-Request-ID" = Some h -> h <> "" -> rid = h)
    /\ (headers req !! "X-Request-ID" = None
        \/ headers req !! "X-Request-ID" = Some "" -> rid = uuid4)
    /\ let '(r, m', evs) := protected_action req uuid4 net m in
       Forall (fun ev => forall hs,
                   post_headers ev = Some hs ->
                   hs = {[ "X-Request-ID" := rid ]}) evs
       /\ (forall resp,
              r = Ok resp -> status resp = 200 ->
              exists d, body resp = JDict d
                        /\ d !! "request_id" = Some (JStr rid)).
Proof.
  intros req uuid4 net m rid. split; [|split].
  - intros h Hh Hne. unfold rid, resolve_request_id. rewrite Hh.
    destruct h; [done|reflexivity].
  - intros [Hh|Hh]; unfold rid, resolve_request_id; by rewrite Hh.
  - pose proof (protected_action_events req uuid4 net m) as Hev.
    fold rid in Hev. unfold protected_action in *. fold rid.
    destruct (parse_body (body_of req)) as [a|e]; simpl in *.
    2:{ split; [constructor|]. intros resp [=]. }
    destruct (call_provider_token _ _ _ _ _ _ _) as [[r0 m'] evs].
    simpl in *. split.
    + eapply Forall_impl; [exact Hev|]. intros ev Hcase hs Hhs.
      destruct Hcase as [(u & p & dl & ->)|Hnp].
      * simpl in Hhs. by injection Hhs as <-.
      * destruct ev; simpl in *; discriminate.
    + intros resp Hr Hst. destruct r0 as [[[st pj] err]|e]; [|discriminate].
      simpl in Hr. unfold render in Hr.
      destruct (String.eqb st "auth_failed").
      { injection Hr as <-. simpl in Hst. lia. }
      destruct (negb (String.eqb st "ok")).
      { injection Hr as <-. simpl in Hst. lia. }
      destruct (Py.get (of_option pj) "user") as [user|]; [|discriminate].
      destruct (Py.get (of_option pj) "token") as [tok|]; [|discriminate].
      simpl in Hr. injection Hr as <-. simpl. eexists. split; [reflexivity|].
      reflexivity.
Qed.

(** C7 as stated fails for a header that is present and empty: the id the
    outbound call and the response body carry is then the generated one, not
    the header's exact string. *)
Lemma empty_request_id_is_replaced :
  headers (Sample.action_with_id Sample.credentials "") !! "X-Request-ID"
  = Some ""
  /\ (protected_action (Sample.action_with_id Sample.credentials "")
        Sample.uuid (Sample.always (Responds Sample.granted)) METRICS).2
     = [Post "http://127.0.0.1:8080/token"
          {[ "username" := JStr "divya"; "password" := JStr "pass123";
             "delay_ms" := JInt 0 ]}
          {[ "X-Request-ID" := Sample.uuid ]} TIMEOUT_SECS]
  /\ (protected_action (Sample.action_with_id Sample.credentials "")
        Sample.uuid (Sample.always (Responds Sample.granted)) METRICS).1.1
     = Ok (Response
             (JDict {[ "consumer" := JStr "ok";
                       "action" := JStr "ping";
                       "user" := JStr "divya";
                       "token" := JStr "token-divya";
                       "request_id" := JStr Sample.uuid ]}) 200)
  /\ Sample.uuid <> "".
Proof. repeat split; try reflexivity. discriminate. Qed.

(** What [protected_action] does with a body it can parse, for C8: the
    parse succeeds whenever the body is an object whose username is a
    string, missing or false, and then the action defaults to ["ping"], a
    missing delay and a delay [int] rejects both give 0, and a missing retry
    flag gives [True]; a missing body is the empty object. *)
Lemma parse_body_defaults d u :
  or_ (of_option (d !! "username")) (JStr "") = JStr u ->
  exists a,
    parse_body (JDict d) = Ok a
    /\ arg_username a = str_strip u
    /\ (d !! "action" = None -> arg_action a = JStr "ping")
    /\ (d !! "delay_ms" = None -> arg_delay_ms a = 0)
    /\ (forall v, d !! "delay_ms" = Some v -> Py.int v = None ->
                  arg_delay_ms a = 0)
    /\ (d !! "retry" = None -> arg_enable_retry a = true).
Proof.
  intros Hu. eexists. split; [by apply parse_body_string_username|]. simpl.
  repeat split.
  - by intros ->.
  - by intros ->.
  - intros v -> Hv. simpl. unfold or_. destruct (truthy v); [by rewrite Hv|done].
  - by intros ->.
Qed.

Lemma body_of_missing req : get_json req = None -> body_of req = JDict ∅.
Proof. unfold body_of. by intros ->. Qed.

(** C8 at the failing input.  A body whose username is a JSON number makes
    [protected_action] raise [AttributeError] before any outbound call, and
    the application answers 500: a malformed field that is not coerced. *)
Theorem numeric_username_is_unhandled :
  forall uuid4 net m,
    protected_action (post_action Sample.numeric_username) uuid4 net m
    = (Raised (Exc AttributeError "object has no attribute 'strip'"),
       incr protected_action_requests m, [])
    /\ status (handle (post_action Sample.numeric_username) uuid4 net m).1.1
       = 500.
Proof. intros uuid4 net m. split; reflexivity. Qed.

(** ** Counters only go up *)

Lemma token_mono req m k : m k <= (ServiceA.token req m).1.2 k.
Proof.
  unfold ServiceA.token.
  destruct (ServiceA.token_view req) as [[resp evs]|e]; simpl;
    apply incr_mono_A.
Qed.

Lemma dispatch_mono_A req m k : m k <= (ServiceA.dispatch req m).1.2 k.
Proof.
  unfold ServiceA.dispatch.
  repeat case_bool_decide; simpl; try lia. apply token_mono.
Qed.

Lemma handle_mono_A req m k : m k <= (ServiceA.handle req m).1.2 k.
Proof.
  unfold ServiceA.handle, ServiceA.log_request.
  pose proof (dispatch_mono_A req m k) as H.
  destruct (ServiceA.dispatch req m) as [[r m1] evs]. simpl in *.
  etrans; [exact H|]. apply incr_mono_A.
Qed.

Lemma serve_mono_A reqs : forall m k, m k <= ServiceA.serve reqs m k.
Proof.
  induction reqs as [|req reqs IH]; intros m k; simpl; [lia|].
  etrans; [apply (handle_mono_A req m k)|]. apply IH.
Qed.

Lemma backoff_mono enable_retry attempt m k :
  m k <= (backoff enable_retry attempt m).1 k.
Proof.
  unfold backoff. destruct (enable_retry && Nat.eqb attempt 0); simpl;
    [apply incr_mono_B|lia].
Qed.

Lemma for_attempt_mono username password delay_ms request_id enable_retry
    net range :
  forall last_exc m k,
    m k <= (for_attempt username password delay_ms request_id enable_retry
              net range last_exc m).1.2 k.
Proof.
  induction range as [|attempt range IH]; intros last_exc m k; simpl; [lia|].
  destruct (try_block (net attempt)) as [t|e]; simpl; [lia|].
  destruct (isinstance_Timeout e).
  { pose proof (backoff_mono enable_retry attempt
                  (incr provider_timeouts (incr provider_failures m)) k) as Hb.
    destruct (backoff _ _ _) as [m1 pause].
    specialize (IH (Some e) m1 k).
    destruct (for_attempt _ _ _ _ _ _ range (Some e) m1) as [[r' m2] evs].
    simpl in *.
    pose proof (incr_mono_B provider_failures k m).
    pose proof (incr_mono_B provider_timeouts k (incr provider_failures m)).
    lia. }
  destruct (isinstance_ConnectionError e).
  { pose proof (backoff_mono enable_retry attempt
                  (incr provider_connection_errors (incr provider_failures m))
                  k) as Hb.
    destruct (backoff _ _ _) as [m1 pause].
    specialize (IH (Some e) m1 k).
    destruct (for_attempt _ _ _ _ _ _ range (Some e) m1) as [[r' m2] evs].
    simpl in *.
    pose proof (incr_mono_B provider_failures k m).
    pose proof (incr_mono_B provider_connection_errors k
                  (incr provider_failures m)).
    lia. }
  destruct (isinstance_RequestException e); simpl; [|lia].
  pose proof (incr_mono_B provider_failures k m).
  pose proof (incr_mono_B provider_other_errors k (incr provider_failures m)).
  lia.
Qed.

Lemma protected_action_mono req uuid4 net m k :
  m k <= (protected_action req uuid4 net m).1.2 k.
Proof.
  unfold protected_action, call_provider_token.
  pose proof (incr_mono_B protected_action_requests k m) as H0.
  destruct (parse_body (body_of req)) as [a|e]; simpl; [|exact H0].
  pose proof (for_attempt_mono (arg_username a) (arg_password a)
                (arg_delay_ms a) (resolve_request_id req uuid4)
                (arg_enable_retry a) net
                (seq 0 (attempts (arg_enable_retry a))) None
                (incr protected_action_requests m) k) as H1.
  destruct (for_attempt _ _ _ _ _ _ _ _ _) as [[r m'] evs]. simpl in *. lia.
Qed.

Lemma dispatch_mono_B req uuid4 net m k :
  m k <= (dispatch req uuid4 net m).1.2 k.
Proof.
  unfold dispatch.
  repeat case_bool_decide; simpl; try lia. apply protected_action_mono.
Qed.

Lemma handle_mono_B req uuid4 net m k :
  m k <= (handle req uuid4 net m).1.2 k.
Proof.
  unfold handle, log_request.
  pose proof (dispatch_mono_B req uuid4 net m k) as H.
  destruct (dispatch req uuid4 net m) as [[r m1] evs]. simpl in *.
  etrans; [exact H|]. apply incr_mono_B.
Qed.

Lemma serve_mono_B arrs : forall m k, m k <= serve arrs m k.
Proof.
  induction arrs as [|a arrs IH]; intros m k; simpl; [lia|].
  etrans; [apply (handle_mono_B (arr_request a) (arr_uuid4 a) (arr_net a) m k)|].
  apply IH.
Qed.

(** C9.  In both services every counter is non-decreasing: for every
    request the application handles (any route, any body, any behaviour of
    the provider, and also when the view raises) each counter afterwards is
    at least what it was before, and so it is after any sequence of
    requests. *)
Theorem counters_never_decrease :
  (forall req m k, m k <= (ServiceA.handle req m).1.2 k)
  /\ (forall reqs m k, m k <= ServiceA.serve reqs m k)
  /\ (forall req uuid4 net m k, m k <= (handle req uuid4 net m).1.2 k)
  /\ (forall arrs m k, m k <= serve arrs m k).
Proof.
  split; [exact handle_mono_A|]. split; [exact (fun r => serve_mono_A r)|].
  split; [exact handle_mono_B|]. exact (fun a => serve_mono_B a).
Qed.

(** ** Stripping *)

Lemma append_cons (a : Ascii.ascii) (s t : string) :
  String a s +:+ t = String a (s +:+ t).
Proof. reflexivity. Qed.

Lemma append_empty_r (s : string) : s +:+ "" = s.
Proof.
  induction s as [|a s IH]; [done|]. by rewrite append_cons, IH.
Qed.

Lemma append_assoc (a b c : string) : (a +:+ b) +:+ c = a +:+ (b +:+ c).
Proof.
  induction a as [|x a IH]; [done|]. by rewrite !append_cons, IH.
Qed.

Lemma append_length (a b : string) :
  String.length (a +:+ b) = (String.length a + String.length b)%nat.
Proof.
  induction a as [|x a IH]; [done|]. rewrite append_cons. simpl. by rewrite IH.
Qed.

Lemma append_cancel_l (a b c : string) : a +:+ b = a +:+ c -> b = c.
Proof.
  induction a as [|x a IH]; [done|]. rewrite !append_cons.
  intros [= H]. by apply IH.
Qed.

Lemma drop_prefix_app (p s : string) : drop_prefix p (p +:+ s) = Some s.
Proof.
  induction p as [|a p IH]; [done|].
  rewrite append_cons. simpl. by rewrite Ascii.eqb_refl.
Qed.

Lemma drop_prefix_some (p s s' : string) :
  drop_prefix p s = Some s' -> s = p +:+ s'.
Proof.
  revert s. induction p as [|a p IH]; intros s; simpl.
  - by intros [= ->].
  - destruct s as [|b s]; [done|].
    destruct (Ascii.eqb_spec a b) as [->|]; [|done].
    intros H. by rewrite append_cons, <- (IH _ H).
Qed.

(** Two beginnings of one text: one is the beginning of the other. *)
Lemma drop_prefix_both (p q s t : string) :
  drop_prefix p (q +:+ t) = Some s ->
  (exists r, drop_prefix p q = Some r) \/ (exists r, drop_prefix q p = Some r).
Proof.
  revert q. induction p as [|a p IH]; intros q; simpl; [eauto|].
  destruct q as [|b q]; [eauto|]. rewrite append_cons. simpl.
  destruct (Ascii.eqb_spec a b) as [->|Hne]; [|done].
  rewrite Ascii.eqb_refl. apply IH.
Qed.

Section strip_of.

Variable ps : list string.
Hypothesis Hfree : Observe.prefix_free ps = true.

Lemma prefix_free_nonempty p : In p ps -> p <> "".
Proof.
  intros Hp. unfold Observe.prefix_free in Hfree.
  rewrite forallb_forall in Hfree. specialize (Hfree p Hp).
  apply andb_prop in Hfree as [Hne _].
  intros ->. discriminate Hne.
Qed.

Lemma prefix_free_eq p q r : In p ps -> In q ps -> drop_prefix p q = Some r -> p = q.
Proof.
  intros Hp Hq Hd. unfold Observe.prefix_free in Hfree.
  rewrite forallb_forall in Hfree. specialize (Hfree p Hp).
  apply andb_prop in Hfree as [_ Hall].
  rewrite forallb_forall in Hall. specialize (Hall q Hq).
  rewrite Hd, orb_false_r in Hall. by apply String.eqb_eq.
Qed.

Lemma drop_any_some qs s s' :
  drop_any qs s = Some s' -> exists p, In p qs /\ s = p +:+ s'.
Proof.
  induction qs as [|q qs IH]; simpl; [done|].
  destruct (drop_prefix q s) as [t|] eqn:Hq.
  - intros [= ->]. exists q. split; [by left|by apply drop_prefix_some].
  - intros H. destruct (IH H) as (p & Hp & ->). exists p. split; [by right|done].
Qed.

Lemma drop_any_none qs s p :
  drop_any qs s = None -> In p qs -> drop_prefix p s = None.
Proof.
  induction qs as [|q qs IH]; simpl; [done|].
  destruct (drop_prefix q s) as [t|] eqn:Hq; [done|].
  intros H [<-|Hp]; [done|by apply IH].
Qed.

Lemma drop_any_is_none qs s :
  (forall p, In p qs -> drop_prefix p s = None) -> drop_any qs s = None.
Proof.
  induction qs as [|q qs IH]; simpl; [done|]. intros H.
  rewrite (H q) by (by left). apply IH. intros p Hp. apply H. by right.
Qed.

(** A text that begins with a text of [ps] loses just that one. *)
Lemma drop_any_app p s : In p ps -> drop_any ps (p +:+ s) = Some s.
Proof.
  intros Hp.
  destruct (drop_any ps (p +:+ s)) as [t|] eqn:Hd.
  - destruct (drop_any_some _ _ _ Hd) as (q & Hq & Heq).
    assert (Hqp : q = p).
    { assert (Hdq : drop_prefix q (p +:+ s) = Some t)
        by (rewrite Heq; apply drop_prefix_app).
      destruct (drop_prefix_both _ _ _ _ Hdq) as [[r Hr]|[r Hr]].
      - by apply (prefix_free_eq q p r).
      - symmetry. by apply (prefix_free_eq p q r). }
    subst q. by rewrite (append_cancel_l _ _ _ Heq).
  - pose proof (drop_any_none _ _ p Hd Hp) as H.
    by rewrite drop_prefix_app in H.
Qed.


(** What [lstrip_n] removes is a run of [ps]. *)
Lemma lstrip_n_run n : forall s,
  exists l, s = l +:+ lstrip_n ps n s /\ Observe.run_of ps l.
Proof.
  induction n as [|n IH]; intros s; simpl.
  - exists "". split; [done|constructor].
  - destruct (drop_any ps s) as [s'|] eqn:Hd.
    + destruct (drop_any_some _ _ _ Hd) as (p & Hp & ->).
      destruct (IH s') as (l & Hl & Hrun).
      exists (p +:+ l). split; [|by constructor].
      by rewrite append_assoc, <- Hl.
    + exists "". split; [done|constructor].
Qed.

(** With enough steps, what [lstrip_n] leaves begins with no text of
    [ps]. *)
Lemma lstrip_n_clean n : forall s,
  (String.length s <= n)%nat -> drop_any ps (lstrip_n ps n s) = None.
Proof.
  induction n as [|n IH]; intros s Hn; simpl.
  - destruct s; [|simpl in Hn; lia].
    apply drop_any_is_none. intros p Hp.
    pose proof (prefix_free_nonempty p Hp). by destruct p.
  - destruct (drop_any ps s) as [s'|] eqn:Hd; [|done].
    destruct (drop_any_some _ _ _ Hd) as (p & Hp & ->).
    apply IH. rewrite append_length in Hn.
    pose proof (prefix_free_nonempty p Hp). destruct p; [done|simpl in Hn; lia].
Qed.

(** A text that begins with no text of [ps] is left as it is. *)
Lemma lstrip_n_fixed n s : drop_any ps s = None -> lstrip_n ps n s = s.
Proof. intros H. destruct n; simpl; [done|by rewrite H]. Qed.

(** [only_n] accepts runs of [ps] only, and, with enough steps, all of
    them. *)
Lemma only_n_run n : forall s, only_n ps n s = true -> Observe.run_of ps s.
Proof.
  induction n as [|n IH]; intros s; destruct s as [|a s]; simpl;
    try done; try (intros _; constructor).
  destruct (drop_any ps (String a s)) as [s'|] eqn:Hd; [|done].
  destruct (drop_any_some _ _ _ Hd) as (p & Hp & ->).
  intros H. constructor; [done|by apply IH].
Qed.

Lemma run_only_n s :
  Observe.run_of ps s -> forall n, (String.length s <= n)%nat -> only_n ps n s = true.
Proof.
  induction 1 as [|p s Hp Hrun IH]; intros n Hn; [by destruct n|].
  pose proof (prefix_free_nonempty p Hp) as Hne.
  pose proof (drop_any_app p s Hp) as Hd.
  rewrite append_length in Hn.
  destruct p as [|a p]; [done|]. rewrite append_cons in *.
  destruct n as [|n]; [simpl in Hn; lia|].
  cbn [only_n]. rewrite Hd. apply IH. simpl in Hn. lia.
Qed.

Lemma run_only_of s : Observe.run_of ps s -> only_of ps s = true.
Proof. intros H. by apply run_only_n. Qed.

(** What [rstrip_of] removes is a run of [ps]. *)
Lemma rstrip_of_run s :
  exists r, s = rstrip_of ps s +:+ r /\ Observe.run_of ps r.
Proof.
  induction s as [|a s IH].
  - exists "". split; [done|constructor].
  - cbn [rstrip_of]. destruct (only_of ps (String a s)) eqn:Ho.
    + exists (String a s). split; [done|]. by apply (only_n_run _ _ Ho).
    + destruct IH as (r & Hr & Hrun). exists r. split; [|done].
      by rewrite append_cons, <- Hr.
Qed.

(** [rstrip_of] cuts at the first place the rest is a run of [ps]. *)
Lemma rstrip_of_cut a b :
  Observe.run_of ps b -> exists c, a = rstrip_of ps (a +:+ b) +:+ c.
Proof.
  intros Hb. induction a as [|x a IH].
  - exists "". change ("" +:+ b) with b.
    destruct b as [|y b]; [done|].
    cbn [rstrip_of]. by rewrite (run_only_of _ Hb).
  - rewrite append_cons. cbn [rstrip_of].
    destruct (only_of ps (String x (a +:+ b))).
    + by exists (String x a).
    + destruct IH as (c & Hc). exists c. by rewrite append_cons, <- Hc.
Qed.

(** What [rstrip_of] leaves ends with no text of [ps]. *)
Lemma rstrip_of_clean s t p : In p ps -> rstrip_of ps s <> t +:+ p.
Proof.
  intros Hp Heq.
  destruct (rstrip_of_run s) as (r & Hs & Hrun).
  assert (Hs' : s = t +:+ (p +:+ r)) by (by rewrite <- append_assoc, <- Heq).
  destruct (rstrip_of_cut t (p +:+ r)) as (c & Hc); [by constructor|].
  rewrite <- Hs', Heq in Hc.
  apply (f_equal String.length) in Hc. rewrite !append_length in Hc.
  pose proof (prefix_free_nonempty p Hp). destruct p; [done|simpl in Hc; lia].
Qed.

(** [rstrip_of] keeps a beginning that is no text of [ps]. *)
Lemma rstrip_of_keeps_start s :
  drop_any ps s = None -> drop_any ps (rstrip_of ps s) = None.
Proof.
  intros Hs. apply drop_any_is_none. intros p Hp.
  destruct (drop_prefix p (rstrip_of ps s)) as [t|] eqn:Hd; [|done].
  apply drop_prefix_some in Hd.
  destruct (rstrip_of_run s) as (r & Hr & _).
  rewrite Hd, append_assoc in Hr.
  pose proof (drop_any_none _ _ p Hs Hp) as Hn.
  by rewrite Hr, drop_prefix_app in Hn.
Qed.

(** A run of [ps] that is not empty ends with one of them. *)
Lemma run_of_end s :
  Observe.run_of ps s -> s = "" \/ exists t p, In p ps /\ s = t +:+ p.
Proof.
  induction 1 as [|p s Hp Hrun IH]; [by left|]. right.
  destruct IH as [->|(t & q & Hq & ->)].
  - exists "", p. by rewrite append_empty_r.
  - exists (p +:+ t), q. by rewrite append_assoc.
Qed.

(** A text that ends with no text of [ps] is left as it is. *)
Lemma rstrip_of_fixed s :
  (forall t p, In p ps -> s <> t +:+ p) -> rstrip_of ps s = s.
Proof.
  intros Hclean. destruct (rstrip_of_run s) as (r & Hr & Hrun).
  destruct (run_of_end r Hrun) as [->|(t & p & Hp & ->)].
  - by rewrite append_empty_r in Hr.
  - exfalso. apply (Hclean (rstrip_of ps s +:+ t) p Hp).
    by rewrite append_assoc.
Qed.

(** [strip_of] removes a run of [ps] at each end, and what it leaves
    neither begins nor ends with a text of [ps]. *)
Lemma strip_of_spec s :
  (exists l r,
      s = l +:+ strip_of ps s +:+ r
      /\ Observe.run_of ps l /\ Observe.run_of ps r)
  /\ (forall p, In p ps -> drop_prefix p (strip_of ps s) = None)
  /\ (forall t p, In p ps -> strip_of ps s <> t +:+ p).
Proof.
  unfold strip_of, lstrip_of. split; [|split].
  - destruct (lstrip_n_run (String.length s) s) as (l & Hl & Hlrun).
    destruct (rstrip_of_run (lstrip_n ps (String.length s) s))
      as (r & Hr & Hrrun).
    exists l, r. split; [|done]. by rewrite <- Hr.
  - intros p Hp. apply (drop_any_none ps); [|done].
    apply rstrip_of_keeps_start. by apply lstrip_n_clean.
  - intros t p. apply rstrip_of_clean.
Qed.

Lemma strip_of_idempotent s : strip_of ps (strip_of ps s) = strip_of ps s.
Proof.
  destruct (strip_of_spec s) as (_ & Hstart & Hend).
  unfold strip_of at 1. unfold lstrip_of.
  rewrite lstrip_n_fixed by (by apply drop_any_is_none).
  by apply rstrip_of_fixed.
Qed.

End strip_of.

Lemma WHITESPACE_prefix_free : Observe.prefix_free WHITESPACE = true.
Proof. reflexivity. Qed.

Lemma str_strip_idempotent s : str_strip (str_strip s) = str_strip s.
Proof. apply strip_of_idempotent, WHITESPACE_prefix_free. Qed.

(** ** Claims about the credential authority *)

Lemma eq_str_or_default v s :
  s <> "" -> eq_str (or_ v (JStr "")) s = true <-> v = JStr s.
Proof.
  intros Hs.
  assert (Hempty : eq_str (JStr "") s = false) by (by destruct s).
  destruct v as [|b|z|f|t|l|d];
    try (unfold or_; destruct (truthy _);
         [unfold eq_str|rewrite Hempty]; split; discriminate).
  rewrite or_str_default. unfold eq_str. rewrite String.eqb_eq.
  split; [by intros ->|by intros [= ->]].
Qed.

(** [token] on a body whose username is a string (or is missing or false,
    and so replaced by the empty string): what the delay step raises leaves
    the view, and otherwise the credentials decide the answer. *)
Lemma token_string_username req d u m :
  ServiceA.body_of req = JDict d ->
  or_ (of_option (d !! "username")) (JStr "") = JStr u ->
  ServiceA.token req m
  = match ServiceA.maybe_delay_from_query_or_json (ServiceA.sleep_raises req)
            (default 0
               (Py.int (ServiceA.delay_value req (of_option (d !! "delay_ms")))))
    with
    | Ok evs =>
        (Ok (if String.eqb (str_strip u) "divya"
                && eq_str (or_ (of_option (d !! "password")) (JStr "")) "pass123"
             then Response
                    (JDict {[ "token" := JStr ("token-" +:+ str_strip u);
                              "user" := JStr (str_strip u) ]}) 200
             else Response (JDict {[ "error" := JStr "invalid credentials" ]})
                    401),
         ServiceA.incr ServiceA.token_requests m, evs)
    | Raised e => (Raised e, ServiceA.incr ServiceA.token_requests m, [])
    end.
Proof.
  intros Hb Hu. unfold ServiceA.token, ServiceA.token_view.
  rewrite Hb. simpl. rewrite Hu. simpl.
  destruct (ServiceA.maybe_delay_from_query_or_json _ _) as [evs|e]; simpl;
    [|done].
  by destruct (String.eqb (str_strip u) "divya"
               && eq_str (or_ (of_option (d !! "password")) (JStr "")) "pass123").
Qed.

Lemma sleep_limit_fits_a_float :
  ServiceA.SLEEP_LIMIT_MS < ServiceA.FLOAT_LIMIT.
Proof. reflexivity. Qed.

(** The delay step returns when there is nothing to sleep, and when the
    sleep is within the limit and the platform does not refuse it. *)
Lemma maybe_delay_returns raises z :
  z <= 0 \/ (z <= ServiceA.SLEEP_LIMIT_MS /\ raises z = None) ->
  ServiceA.maybe_delay_from_query_or_json raises z
  = Ok (if 0 <? z then [Sleep z] else []).
Proof.
  unfold ServiceA.maybe_delay_from_query_or_json, ServiceA.time_sleep. simpl.
  intros [Hz|[Hz Hr]].
  - destruct (Z.ltb_spec 0 z); [lia|]. by rewrite andb_false_r.
  - destruct (Z.ltb_spec 0 z); [|by rewrite andb_false_r].
    destruct (Z.eqb_spec z 0); [lia|]. simpl.
    pose proof sleep_limit_fits_a_float.
    destruct (Z.leb_spec ServiceA.FLOAT_LIMIT z); [lia|].
    destruct (Z.ltb_spec ServiceA.SLEEP_LIMIT_MS z); [lia|]. by rewrite Hr.
Qed.

(** [token] when its delay step returns. *)
Lemma token_sleep_returns req d u m :
  ServiceA.body_of req = JDict d ->
  or_ (of_option (d !! "username")) (JStr "") = JStr u ->
  Observe.sleep_returns req (Observe.parsed_delay req d) ->
  ServiceA.token req m
  = (Ok (if String.eqb (str_strip u) "divya"
            && eq_str (or_ (of_option (d !! "password")) (JStr "")) "pass123"
         then Response
                (JDict {[ "token" := JStr ("token-" +:+ str_strip u);
                          "user" := JStr (str_strip u) ]}) 200
         else Response (JDict {[ "error" := JStr "invalid credentials" ]}) 401),
     ServiceA.incr ServiceA.token_requests m,
     if 0 <? Observe.parsed_delay req d
     then [Sleep (Observe.parsed_delay req d)] else []).
Proof.
  intros Hb Hu Hret. rewrite (token_string_username req d u m Hb Hu).
  unfold Observe.sleep_returns in Hret.
  fold (Observe.parsed_delay req d).
  by rewrite (maybe_delay_returns _ _ Hret).
Qed.

(** The delay step raises beyond the limit of the clock, and when the
    platform refuses the sleep. *)
Lemma maybe_delay_overflows raises z :
  ServiceA.SLEEP_LIMIT_MS < z ->
  exists msg,
    ServiceA.maybe_delay_from_query_or_json raises z
    = Raised (Exc OverflowError msg).
Proof.
  intros Hz. unfold ServiceA.maybe_delay_from_query_or_json, ServiceA.time_sleep.
  assert (Hpos : 0 < z) by (unfold ServiceA.SLEEP_LIMIT_MS in Hz; lia).
  simpl. destruct (Z.eqb_spec z 0); [lia|].
  destruct (Z.ltb_spec 0 z); [|lia]. simpl.
  destruct (ServiceA.FLOAT_LIMIT <=? z); [eauto|].
  destruct (Z.ltb_spec ServiceA.SLEEP_LIMIT_MS z); [|lia]. eauto.
Qed.

Lemma maybe_delay_refused raises z e :
  0 < z <= ServiceA.SLEEP_LIMIT_MS -> raises z = Some e ->
  ServiceA.maybe_delay_from_query_or_json raises z = Raised e.
Proof.
  intros Hz Hr. unfold ServiceA.maybe_delay_from_query_or_json, ServiceA.time_sleep.
  simpl. destruct (Z.eqb_spec z 0); [lia|].
  destruct (Z.ltb_spec 0 z); [|lia]. simpl.
  pose proof sleep_limit_fits_a_float.
  destruct (Z.leb_spec ServiceA.FLOAT_LIMIT z); [lia|].
  destruct (Z.ltb_spec ServiceA.SLEEP_LIMIT_MS z); [lia|]. by rewrite Hr.
Qed.



(** The first iteration always makes its call. *)
Lemma call_provider_token_posts username password delay_ms request_id
    enable_retry net m :
  (1 <= posts (call_provider_token username password delay_ms request_id
                 enable_retry net m).2)%nat.
Proof.
  unfold call_provider_token.
  assert (Hseq : exists range, seq 0 (attempts enable_retry) = 0%nat :: range)
    by (destruct enable_retry; simpl; eauto).
  destruct Hseq as (range & ->). simpl.
  destruct (try_block (net 0%nat)) as [t|e]; simpl; [unfold posts; simpl; lia|].
  destruct (isinstance_Timeout e).
  { destruct (backoff _ _ _) as [m1 pause].
    destruct (for_attempt _ _ _ _ _ _ range (Some e) m1) as [[r' m2] evs].
    unfold posts. simpl. lia. }
  destruct (isinstance_ConnectionError e).
  { destruct (backoff _ _ _) as [m1 pause].
    destruct (for_attempt _ _ _ _ _ _ range (Some e) m1) as [[r' m2] evs].
    unfold posts. simpl. lia. }
  destruct (isinstance_RequestException e); unfold posts; simpl; lia.
Qed.



(** ** The theorems at concrete runs *)

(** C1 at a run whose first call is answered 401, and at one whose first
    call times out and whose second is answered 401. *)
Lemma auth_rejection_witness :
  status_code Sample.rejected = 401
  /\ call_provider_token "divya" (JStr "wrong") 0 "abc123" true
       (Sample.always (Responds Sample.rejected)) METRICS
     = (Ok ("auth_failed", None, None), METRICS,
        [post "divya" (JStr "wrong") 0 "abc123"])
  /\ posts (call_provider_token "divya" (JStr "wrong") 0 "abc123" true
              (Sample.first_then (Throws Sample.timed_out)
                 (Responds Sample.rejected)) METRICS).2 = 2%nat.
Proof.
  split; [reflexivity|]. split.
  - destruct (auth_rejection_short_circuits "divya" (JStr "wrong") 0 "abc123"
                true (Sample.always (Responds Sample.rejected))
                Sample.rejected eq_refl) as (_ & H & _).
    apply H. reflexivity.
  - destruct (auth_rejection_short_circuits "divya" (JStr "wrong") 0 "abc123"
                true (Sample.first_then (Throws Sample.timed_out)
                        (Responds Sample.rejected))
                Sample.rejected eq_refl) as (_ & _ & H).
    specialize (H METRICS Sample.timed_out eq_refl eq_refl eq_refl eq_refl).
    destruct (call_provider_token _ _ _ _ _ _ _) as [[res m'] evs].
    simpl. tauto.
Defined.

(** C2 at a run whose first call is answered 500. *)
Lemma other_error_witness :
  try_block (Responds Sample.server_error)
  = Raised (Exc HTTPError (http_error Sample.server_error))
  /\ (call_provider_token "divya" (JStr "pass123") 0 "abc123" true
        (Sample.always (Responds Sample.server_error)) METRICS).1.1
     = Ok ("provider_failed", None, Some (http_error Sample.server_error))
  /\ posts (call_provider_token "divya" (JStr "pass123") 0 "abc123" true
              (Sample.always (Responds Sample.server_error)) METRICS).2
     = 1%nat.
Proof.
  split; [reflexivity|].
  pose proof (other_error_is_not_retried "divya" (JStr "pass123") 0 "abc123"
                (Sample.always (Responds Sample.server_error)) METRICS
                (Exc HTTPError (http_error Sample.server_error))
                eq_refl eq_refl eq_refl) as H.
  destruct (call_provider_token _ _ _ _ _ _ _) as [[res m'] evs].
  simpl. tauto.
Defined.

(** C3 at a request with the fixed pair while the provider never answers in
    time. *)
Lemma transient_exhaustion_witness :
  parse_body (body_of (post_action Sample.credentials))
  = Ok (ActionArgs "divya" (JStr "pass123") (JStr "ping") 0 true)
  /\ (protected_action (post_action Sample.credentials) Sample.uuid
        (Sample.always (Throws Sample.timed_out)) METRICS).1.1
     = Ok (Response
             (JDict {[ "error" := JStr "provider unavailable";
                       "details" := JStr (exc_str Sample.timed_out) ]}) 503)
  /\ posts (protected_action (post_action Sample.credentials) Sample.uuid
              (Sample.always (Throws Sample.timed_out)) METRICS).2 = 2%nat.
Proof.
  split; [reflexivity|].
  destruct (transient_exhaustion_gives_503
              (post_action Sample.credentials) Sample.uuid
              (Sample.always (Throws Sample.timed_out)) METRICS
              (ActionArgs "divya" (JStr "pass123") (JStr "ping") 0 true)
              Sample.timed_out Sample.timed_out
              eq_refl eq_refl eq_refl (fun _ => conj eq_refl eq_refl))
    as (_ & _ & H).
  destruct (protected_action _ _ _ _) as [[resp m'] evs].
  simpl. tauto.
Defined.

(** C4 at a run whose first call times out and whose second is granted. *)
Lemma timeout_then_success_witness :
  (call_provider_token "divya" (JStr "pass123") 0 "abc123" true
     (Sample.first_then (Throws Sample.timed_out) (Responds Sample.granted))
     METRICS).1.1
  = Ok ("ok",
        Some (JDict {[ "token" := JStr "token-divya"; "user" := JStr "divya" ]}),
        None)
  /\ sleeps (call_provider_token "divya" (JStr "pass123") 0 "abc123" true
               (Sample.first_then (Throws Sample.timed_out)
                  (Responds Sample.granted)) METRICS).2 = 1%nat.
Proof.
  pose proof (timeout_then_success "divya" (JStr "pass123") 0 "abc123"
                (Sample.first_then (Throws Sample.timed_out)
                   (Responds Sample.granted))
                METRICS Sample.timed_out Sample.granted
                {[ "token" := JStr "token-divya"; "user" := JStr "divya" ]}
                (JStr "token-divya") (JStr "divya") (JStr "ping")
                eq_refl eq_refl eq_refl eq_refl eq_refl eq_refl eq_refl) as H.
  destruct (call_provider_token _ _ _ _ _ _ _) as [[res m'] evs].
  destruct H as (-> & -> & _). split; reflexivity.
Defined.



(** C7 at a request that carries the header [abc123]. *)
Lemma request_id_witness :
  resolve_request_id (Sample.action_with_id Sample.credentials "abc123")
    Sample.uuid = "abc123".
Proof.
  destruct (request_id_propagates
              (Sample.action_with_id Sample.credentials "abc123") Sample.uuid
              (Sample.always (Responds Sample.granted)) METRICS) as (H & _).
  apply H; [reflexivity|discriminate].
Defined.


(** ** Sample runs *)

Example strip_pads : str_strip "  divya " = "divya".
Proof. reflexivity. Qed.

(** White space beyond ASCII is stripped: U+00A0 before and U+3000 after;
    U+200B is no white space. *)
Example strip_unicode :
  str_strip (utf8 [194; 160]%nat +:+ "divya" +:+ utf8 [227; 128; 128]%nat) = "divya"
  /\ str_strip (utf8 [226; 128; 139]%nat +:+ "divya")
     = utf8 [226; 128; 139]%nat +:+ "divya".
Proof. split; reflexivity. Qed.

(** [strip] removes U+001C to U+001F, which [int] does not skip. *)
Example separators_are_space_for_strip_only :
  str_strip (utf8 [31]%nat +:+ "1") = "1" /\ int_of_str (utf8 [31]%nat +:+ "1") = None.
Proof. split; reflexivity. Qed.

(** Decimal digits of other scripts are digits: ARABIC-INDIC 1 and 2. *)
Example int_of_str_arabic_indic :
  int_of_str (utf8 [217; 161; 217; 162]%nat) = Some 12.
Proof. reflexivity. Qed.

Example int_of_str_signed : int_of_str " -1_000 " = Some (-1000).
Proof. reflexivity. Qed.

Example int_of_str_rejects :
  int_of_str "12ms" = None /\ int_of_str "1__0" = None.
Proof. split; reflexivity. Qed.

Example int_of_float_truncates :
  int_of_float (S754_finite true 3 (-1)) = Some (-1).
Proof. reflexivity. Qed.

Example token_sleeps :
  (ServiceA.token
     (ServiceA.post_token {[ "username" := JStr "x"; "delay_ms" := JStr "1500" ]})
     ServiceA.METRICS).2
  = [Sleep 1500].
Proof. reflexivity. Qed.

Example token_ignores_bad_delay :
  (ServiceA.token (ServiceA.post_token Sample.bad_delay) ServiceA.METRICS).2
  = [].
Proof. reflexivity. Qed.

(** A delay no clock holds: the sleep raises, and the application answers
    500 although the credentials are the fixed pair. *)
Example token_huge_delay :
  ServiceA.token (ServiceA.post_token Sample.huge_delay) ServiceA.METRICS
  = (Raised (Exc OverflowError "timestamp too large to convert to C _PyTime_t"),
     ServiceA.incr ServiceA.token_requests ServiceA.METRICS, [])
  /\ status (ServiceA.handle (ServiceA.post_token Sample.huge_delay)
               ServiceA.METRICS).1.1 = 500.
Proof. split; reflexivity. Qed.

(** [HEAD] is served by the view of a [GET] route; [OPTIONS] is answered
    without the view, so [token] is not counted. *)
Example head_and_options :
  (ServiceA.handle (ServiceA.Request "HEAD" "/health" None ∅ ∅ (fun _ => None))
     ServiceA.METRICS).1.1 = ServiceA.health
  /\ status (ServiceA.handle
               (ServiceA.Request "OPTIONS" "/token" None ∅ ∅ (fun _ => None))
               ServiceA.METRICS).1.1 = 200
  /\ (ServiceA.handle
        (ServiceA.Request "OPTIONS" "/token" None ∅ ∅ (fun _ => None))
        ServiceA.METRICS).1.2 ServiceA.token_requests = 0
  /\ status (handle (Request "HEAD" "/protected-action" None ∅) Sample.uuid
               (Sample.always (Responds Sample.granted)) METRICS).1.1 = 405.
Proof. repeat split. Qed.

Example token_counts :
  (ServiceA.handle (ServiceA.post_token ∅) ServiceA.METRICS).1.2
    ServiceA.token_requests = 1.
Proof. reflexivity. Qed.

(** The password is compared as sent. *)
Example token_rejects_padded_password :
  (ServiceA.token (ServiceA.post_token Sample.padded_password)
     ServiceA.METRICS).1.1
  = Ok (Response (JDict {[ "error" := JStr "invalid credentials" ]}) 401).
Proof. reflexivity. Qed.

(** The provider has the same gap as the consumer on a username that is not
    a string. *)
Example token_numeric_username :
  (ServiceA.token (ServiceA.post_token Sample.numeric_username)
     ServiceA.METRICS).1.1
  = Raised (Exc AttributeError "object has no attribute 'strip'").
Proof. reflexivity. Qed.

(** A body that is JSON but not an object leaves the view as well. *)
Example protected_action_list_body :
  (protected_action
     (Request "POST" "/protected-action" (Some (JList [JInt 1])) ∅)
     Sample.uuid (Sample.always (Responds Sample.granted)) METRICS).1.1
  = Raised (Exc AttributeError "object has no attribute 'get'").
Proof. reflexivity. Qed.

(** A connect timeout is counted by the first clause, as a timeout. *)
Example connect_timeout_counts_as_timeout :
  let m := (call_provider_token "divya" (JStr "pass123") 0 "abc123" false
              (Sample.always (Throws (Exc ConnectTimeout "connect timed out")))
              METRICS).1.2 in
  m provider_timeouts = 1 /\ m provider_connection_errors = 0
  /\ m provider_failures = 1 /\ m retries_used = 0.
Proof. repeat split. Qed.

(** Two refused connections with retry: two calls, one sleep between. *)
Example refused_twice :
  let run := call_provider_token "divya" (JStr "pass123") 0 "abc123" true
               (Sample.always (Throws Sample.refused)) METRICS in
  run.1.1 = Ok ("provider_failed", None, Some (exc_str Sample.refused))
  /\ posts run.2 = 2%nat /\ sleeps run.2 = 1%nat
  /\ run.1.2 provider_connection_errors = 2 /\ run.1.2 retries_used = 1.
Proof. repeat split. Qed.

(** An exception outside the [requests] hierarchy is not caught. *)
Example foreign_exception_propagates :
  (call_provider_token "divya" (JStr "pass123") 0 "abc123" true
     (Sample.always (Throws (Exc NonRequestError "boom"))) METRICS).1.1
  = Raised (Exc NonRequestError "boom").
Proof. reflexivity. Qed.

(** The whole consumer on a granted request that carries a correlation
    id. *)
Example action_granted :
  (handle (Sample.action_with_id Sample.credentials "abc123") Sample.uuid
     (Sample.always (Responds Sample.granted)) METRICS).1.1
  = Response
      (JDict {[ "consumer" := JStr "ok";
                "action" := JStr "ping";
                "user" := JStr "divya";
                "token" := JStr "token-divya";
                "request_id" := JStr "abc123" ]}) 200.
Proof. reflexivity. Qed.

(** * Further properties of the two applications *)

Import Observe.

(** ** What each request does to the counters *)

Lemma incr_same_B (k : key) m : incr k m k = m k + 1.
Proof. unfold incr. by rewrite decide_True. Qed.

Lemma incr_other_A (k k' : ServiceA.key) m :
  k' <> k -> ServiceA.incr k m k' = m k'.
Proof. intros H. unfold ServiceA.incr. by rewrite decide_False. Qed.

Lemma incr_other_B (k k' : key) m : k' <> k -> incr k m k' = m k'.
Proof. intros H. unfold incr. by rewrite decide_False. Qed.

(** [token] touches [token_requests] only, whether it returns or raises. *)
Lemma token_metrics req m :
  (ServiceA.token req m).1.2 = ServiceA.incr ServiceA.token_requests m.
Proof.
  unfold ServiceA.token. by destruct (ServiceA.token_view req) as [[resp evs]|e].
Qed.

Lemma dispatch_metrics_A req m :
  (ServiceA.dispatch req m).1.2
  = if routes_to_token req then ServiceA.incr ServiceA.token_requests m else m.
Proof.
  unfold ServiceA.dispatch, routes_to_token.
  repeat case_bool_decide; simpl; try reflexivity; try congruence.
  apply token_metrics.
Qed.

Lemma handle_metrics_A req m :
  (ServiceA.handle req m).1.2
  = ServiceA.incr ServiceA.requests_total
      (if routes_to_token req
       then ServiceA.incr ServiceA.token_requests m else m).
Proof.
  unfold ServiceA.handle, ServiceA.log_request.
  pose proof (dispatch_metrics_A req m) as H.
  destruct (ServiceA.dispatch req m) as [[r m1] evs]. simpl in *. by rewrite H.
Qed.

(** The forwarder's loop leaves the two request counters alone. *)
Lemma for_attempt_request_counters username password delay_ms request_id
    enable_retry net range :
  forall last_exc m,
    let m' := (for_attempt username password delay_ms request_id enable_retry
                 net range last_exc m).1.2 in
    m' requests_total = m requests_total
    /\ m' protected_action_requests = m protected_action_requests.
Proof.
  induction range as [|attempt range IH]; intros last_exc m; simpl; [done|].
  destruct (try_block (net attempt)) as [t|e]; simpl; [done|].
  assert (Hb : forall m0,
             (backoff enable_retry attempt m0).1 requests_total
             = m0 requests_total
             /\ (backoff enable_retry attempt m0).1 protected_action_requests
                = m0 protected_action_requests).
  { intros m0. unfold backoff.
    by destruct (enable_retry && Nat.eqb attempt 0). }
  destruct (isinstance_Timeout e).
  { specialize (Hb (incr provider_timeouts (incr provider_failures m))).
    destruct (backoff _ _ _) as [m1 pause].
    specialize (IH (Some e) m1).
    destruct (for_attempt _ _ _ _ _ _ range (Some e) m1) as [[r' m2] evs].
    simpl in *. destruct IH as [-> ->]. exact Hb. }
  destruct (isinstance_ConnectionError e).
  { specialize (Hb (incr provider_connection_errors (incr provider_failures m))).
    destruct (backoff _ _ _) as [m1 pause].
    specialize (IH (Some e) m1).
    destruct (for_attempt _ _ _ _ _ _ range (Some e) m1) as [[r' m2] evs].
    simpl in *. destruct IH as [-> ->]. exact Hb. }
  by destruct (isinstance_RequestException e).
Qed.

Lemma protected_action_request_counters req uuid4 net m :
  let m' := (protected_action req uuid4 net m).1.2 in
  m' requests_total = m requests_total
  /\ m' protected_action_requests = m protected_action_requests + 1.
Proof.
  unfold protected_action, call_provider_token.
  destruct (parse_body (body_of req)) as [a|e]; simpl; [|done].
  pose proof (for_attempt_request_counters (arg_username a) (arg_password a)
                (arg_delay_ms a) (resolve_request_id req uuid4)
                (arg_enable_retry a) net
                (seq 0 (attempts (arg_enable_retry a))) None
                (incr protected_action_requests m)) as H.
  destruct (for_attempt _ _ _ _ _ _ _ _ _) as [[r m'] evs]. simpl in *.
  destruct H as [-> ->]. done.
Qed.

Lemma dispatch_request_counters req uuid4 net m :
  let m' := (dispatch req uuid4 net m).1.2 in
  m' requests_total = m requests_total
  /\ m' protected_action_requests
     = m protected_action_requests + (if routes_to_action req then 1 else 0).
Proof.
  unfold dispatch, routes_to_action.
  repeat case_bool_decide; simpl; try (split; lia); try congruence.
  apply protected_action_request_counters.
Qed.

Lemma handle_request_counters req uuid4 net m :
  let m' := (handle req uuid4 net m).1.2 in
  m' requests_total = m requests_total + 1
  /\ m' protected_action_requests
     = m protected_action_requests + (if routes_to_action req then 1 else 0).
Proof.
  unfold handle, log_request.
  pose proof (dispatch_request_counters req uuid4 net m) as H.
  destruct (dispatch req uuid4 net m) as [[r m1] evs]. simpl in *.
  destruct H as [H1 H2]. unfold incr. simpl. lia.
Qed.

(** X1.  Every request either application handles is counted once in
    [requests_total], whatever its route and whatever the view does: after
    a sequence of requests the counter has grown by their number. *)
Theorem requests_total_counts_every_request :
  (forall reqs m,
      ServiceA.serve reqs m ServiceA.requests_total
      = m ServiceA.requests_total + Z.of_nat (length reqs))
  /\ (forall arrs m,
      serve arrs m requests_total
      = m requests_total + Z.of_nat (length arrs)).
Proof.
  split.
  - induction reqs as [|req reqs IH]; intros m; [simpl; lia|].
    cbn [ServiceA.serve length]. rewrite IH, handle_metrics_A.
    rewrite incr_same_A.
    destruct (routes_to_token req);
      [rewrite incr_other_A by done|]; lia.
  - induction arrs as [|a arrs IH]; intros m; [simpl; lia|].
    cbn [serve length]. rewrite IH.
    destruct (handle_request_counters (arr_request a) (arr_uuid4 a)
                (arr_net a) m) as [-> _]. lia.
Qed.

(** X2.  [token_requests] counts exactly the [POST /token] requests, also
    those on which the view raises, and [protected_action_requests] exactly
    the [POST /protected-action] requests. *)
Theorem endpoint_counters_count_their_route :
  (forall reqs m,
      ServiceA.serve reqs m ServiceA.token_requests
      = m ServiceA.token_requests
        + Z.of_nat (length (List.filter routes_to_token reqs)))
  /\ (forall arrs m,
      serve arrs m protected_action_requests
      = m protected_action_requests
        + Z.of_nat (length (List.filter
                              (fun a => routes_to_action (arr_request a))
                              arrs))).
Proof.
  split.
  - induction reqs as [|req reqs IH]; intros m; [simpl; lia|].
    cbn [ServiceA.serve List.filter]. rewrite IH, handle_metrics_A.
    rewrite incr_other_A by done.
    destruct (routes_to_token req); [rewrite incr_same_A; simpl length|]; lia.
  - induction arrs as [|a arrs IH]; intros m; [simpl; lia|].
    cbn [serve List.filter]. rewrite IH.
    destruct (handle_request_counters (arr_request a) (arr_uuid4 a)
                (arr_net a) m) as [_ ->].
    destruct (routes_to_action (arr_request a)); [simpl length|]; lia.
Qed.

(** ** The plain endpoints *)

Lemma dispatch_token req m :
  routes_to_token req = true -> ServiceA.dispatch req m = ServiceA.token req m.
Proof.
  unfold routes_to_token, ServiceA.dispatch. intros H.
  apply andb_true_iff in H as [Hp Hm].
  apply bool_decide_eq_true in Hp. apply bool_decide_eq_true in Hm.
  rewrite Hp, Hm. reflexivity.
Qed.

Lemma dispatch_action req uuid4 net m :
  routes_to_action req = true ->
  dispatch req uuid4 net m = protected_action req uuid4 net m.
Proof.
  unfold routes_to_action, dispatch. intros H.
  apply andb_true_iff in H as [Hp Hm].
  apply bool_decide_eq_true in Hp. apply bool_decide_eq_true in Hm.
  rewrite Hp, Hm. reflexivity.
Qed.

(** X3.  [GET /health] answers 200 with [{"status": "ok"}] in both
    applications, whatever the counters, the body and, for the consumer,
    the provider: the consumer makes no outbound call for it, and the only
    counter that moves is [requests_total]. *)
Theorem health_is_always_ok :
  (forall req m,
      ServiceA.path req = "/health" -> ServiceA.method req = "GET" ->
      let '(resp, m', evs) := ServiceA.handle req m in
      resp = Response (JDict {[ "status" := JStr "ok" ]}) 200
      /\ sleeps evs = 0%nat
      /\ m' ServiceA.requests_total = m ServiceA.requests_total + 1
      /\ m' ServiceA.token_requests = m ServiceA.token_requests)
  /\ (forall req uuid4 net m,
      path req = "/health" -> method req = "GET" ->
      let '(resp, m', evs) := handle req uuid4 net m in
      resp = Response (JDict {[ "status" := JStr "ok" ]}) 200
      /\ posts evs = 0%nat
      /\ sleeps evs = 0%nat
      /\ m' requests_total = m requests_total + 1
      /\ forall k, k <> requests_total -> m' k = m k).
Proof.
  split.
  - intros req m Hp Hm. unfold ServiceA.handle, ServiceA.dispatch.
    rewrite Hp, Hm. simpl. repeat split.
  - intros req uuid4 net m Hp Hm. unfold handle, dispatch.
    rewrite Hp, Hm. simpl. repeat split.
    intros k Hk. by apply incr_other_B.
Qed.

(** X4.  [GET /metrics] answers 200 with an object that has exactly the
    counter names as keys, each with the value the counter had when the
    request arrived: the request itself is counted in [requests_total] only
    after the snapshot was taken. *)
Theorem metrics_snapshot_precedes_its_own_count :
  (forall req m,
      ServiceA.path req = "/metrics" -> ServiceA.method req = "GET" ->
      let '(resp, m', evs) := ServiceA.handle req m in
      status resp = 200
      /\ (exists d,
             body resp = JDict d
             /\ (forall k, d !! ServiceA.key_name k = Some (JInt (m k)))
             /\ size d = 2%nat)
      /\ m' ServiceA.requests_total = m ServiceA.requests_total + 1)
  /\ (forall req uuid4 net m,
      path req = "/metrics" -> method req = "GET" ->
      let '(resp, m', evs) := handle req uuid4 net m in
      status resp = 200
      /\ (exists d,
             body resp = JDict d
             /\ (forall k, d !! key_name k = Some (JInt (m k)))
             /\ size d = 7%nat)
      /\ posts evs = 0%nat
      /\ m' requests_total = m requests_total + 1).
Proof.
  split.
  - intros req m Hp Hm. unfold ServiceA.handle, ServiceA.dispatch.
    rewrite Hp, Hm. simpl. split; [reflexivity|]. split; [|reflexivity].
    eexists. split; [reflexivity|]. split; [|reflexivity].
    intros k. by destruct k.
  - intros req uuid4 net m Hp Hm. unfold handle, dispatch.
    rewrite Hp, Hm. simpl. split; [reflexivity|].
    split; [|split; reflexivity].
    eexists. split; [reflexivity|]. split; [|reflexivity].
    intros k. by destruct k.
Qed.

(** ** service-a: what [token] answers, and when it raises *)

Lemma string_username_some body u :
  string_username body = Some u ->
  exists d, body = JDict d
            /\ or_ (of_option (d !! "username")) (JStr "") = JStr u.
Proof.
  unfold string_username. destruct body as [| | | | |l|d]; try discriminate.
  intros H. exists d. split; [reflexivity|].
  destruct (or_ (of_option (d !! "username")) (JStr "")); try discriminate.
  by injection H as ->.
Qed.

Lemma token_view_raises req :
  string_username (ServiceA.body_of req) = None ->
  exists msg, ServiceA.token_view req = Raised (Exc AttributeError msg).
Proof.
  unfold string_username, ServiceA.token_view.
  destruct (ServiceA.body_of req) as [| | | | |l|d]; simpl; eauto.
  destruct (or_ (of_option (d !! "username")) (JStr "")); simpl; eauto.
  discriminate.
Qed.

(** X5.  Whatever the request, an answer of [token] is one of two constant
    responses: 200 with the token ["token-divya"] for the user ["divya"], or
    401 with ["invalid credentials"].  No input gets another token. *)
Theorem token_answers_are_constant :
  forall req m resp,
    (ServiceA.token req m).1.1 = Ok resp ->
    resp = Response
             (JDict {[ "token" := JStr "token-divya"; "user" := JStr "divya" ]})
             200
    \/ resp = Response (JDict {[ "error" := JStr "invalid credentials" ]}) 401.
Proof.
  intros req m resp H.
  destruct (string_username (ServiceA.body_of req)) as [u|] eqn:Hu.
  - apply string_username_some in Hu as (d & Hb & Hu).
    rewrite (token_string_username req d u m Hb Hu) in H.
    destruct (ServiceA.maybe_delay_from_query_or_json _ _) as [evs|e];
      simpl in H; [|discriminate].
    destruct (String.eqb_spec (str_strip u) "divya") as [Hs|Hs]; simpl in H.
    + destruct (eq_str _ _); injection H as <-; [left|right]; [|done].
      by rewrite Hs.
    + injection H as <-. by right.
  - apply token_view_raises in Hu as (msg & Hr).
    unfold ServiceA.token in H. rewrite Hr in H. discriminate.
Qed.

(** X6.  What makes [token] raise.  When the body is JSON that is not an
    object, or its username is a value other than a string that counts as
    true, an [AttributeError] leaves the view before any sleep.  On a body
    with a string (or missing) username the delay step decides: beyond the
    limit of the clock it raises [OverflowError], and within the limit the
    exception of a sleep the platform refuses leaves the view; when the step
    returns, the answer is 200 or 401.  Every request that raises is still
    counted, sleeps nothing, and is answered 500 by the application. *)
Theorem token_raises_on_a_bad_username_or_a_failed_sleep :
  forall req m,
    routes_to_token req = true ->
    (string_username (ServiceA.body_of req) = None ->
     (exists msg,
         ServiceA.token req m
         = (Raised (Exc AttributeError msg),
            ServiceA.incr ServiceA.token_requests m, []))
     /\ status (ServiceA.handle req m).1.1 = 500
     /\ sleeps (ServiceA.handle req m).2 = 0%nat)
    /\ (forall d u,
           ServiceA.body_of req = JDict d ->
           or_ (of_option (d !! "username")) (JStr "") = JStr u ->
           let z := parsed_delay req d in
           (sleep_returns req z ->
            status (ServiceA.handle req m).1.1 = 200
            \/ status (ServiceA.handle req m).1.1 = 401)
           /\ (ServiceA.SLEEP_LIMIT_MS < z ->
               (exists msg,
                   ServiceA.token req m
                   = (Raised (Exc OverflowError msg),
                      ServiceA.incr ServiceA.token_requests m, []))
               /\ status (ServiceA.handle req m).1.1 = 500
               /\ sleeps (ServiceA.handle req m).2 = 0%nat)
           /\ (forall e,
                  0 < z <= ServiceA.SLEEP_LIMIT_MS ->
                  ServiceA.sleep_raises req z = Some e ->
                  ServiceA.token req m
                  = (Raised e, ServiceA.incr ServiceA.token_requests m, [])
                  /\ status (ServiceA.handle req m).1.1 = 500
                  /\ sleeps (ServiceA.handle req m).2 = 0%nat)).
Proof.
  intros req m Hroute.
  assert (Hraised : forall e,
             ServiceA.token req m
             = (Raised e, ServiceA.incr ServiceA.token_requests m, []) ->
             status (ServiceA.handle req m).1.1 = 500
             /\ sleeps (ServiceA.handle req m).2 = 0%nat).
  { intros e Ht. unfold ServiceA.handle.
    rewrite (dispatch_token _ _ Hroute), Ht. split; reflexivity. }
  split.
  - intros Hu. apply token_view_raises in Hu as (msg & Hr).
    assert (Ht : ServiceA.token req m
                 = (Raised (Exc AttributeError msg),
                    ServiceA.incr ServiceA.token_requests m, [])).
    { unfold ServiceA.token. by rewrite Hr. }
    split; [by exists msg|]. by apply (Hraised _ Ht).
  - intros d u Hb Hu z. split; [|split].
    + intros Hret. unfold ServiceA.handle. rewrite (dispatch_token _ _ Hroute).
      rewrite (token_sleep_returns req d u m Hb Hu Hret). simpl.
      destruct (String.eqb (str_strip u) "divya" && eq_str _ _); simpl; auto.
    + intros Hz.
      destruct (maybe_delay_overflows (ServiceA.sleep_raises req) z Hz)
        as (msg & Hd).
      assert (Ht : ServiceA.token req m
                   = (Raised (Exc OverflowError msg),
                      ServiceA.incr ServiceA.token_requests m, [])).
      { rewrite (token_string_username req d u m Hb Hu).
        fold (parsed_delay req d). fold z. by rewrite Hd. }
      split; [by exists msg|]. by apply (Hraised _ Ht).
    + intros e Hz He.
      assert (Ht : ServiceA.token req m
                   = (Raised e, ServiceA.incr ServiceA.token_requests m, [])).
      { rewrite (token_string_username req d u m Hb Hu).
        fold (parsed_delay req d). fold z.
        by rewrite (maybe_delay_refused _ _ _ Hz He). }
      split; [exact Ht|]. by apply (Hraised _ Ht).
Qed.

(** X7.  On a body [token] can read, the sleep depends on the delay alone.
    When [int] accepts the delay value as [z]: for [z] zero or negative the
    view sleeps nothing and answers (a negative delay is no delay); for a
    positive [z] within the limit of the clock, which the platform does not
    refuse, it sleeps [z] milliseconds and then answers, whether or not the
    credentials are accepted; and for a [z] beyond the limit, or one the
    platform refuses, it raises and nothing was slept. *)
Theorem token_sleeps_for_a_positive_delay_within_the_limit :
  forall req d u m z,
    ServiceA.body_of req = JDict d ->
    or_ (of_option (d !! "username")) (JStr "") = JStr u ->
    Py.int (ServiceA.delay_value req (of_option (d !! "delay_ms"))) = Some z ->
    let '(r, m', evs) := ServiceA.token req m in
    (z <= 0 -> evs = [] /\ exists resp, r = Ok resp)
    /\ (0 < z <= ServiceA.SLEEP_LIMIT_MS ->
        ServiceA.sleep_raises req z = None ->
        evs = [Sleep z] /\ exists resp, r = Ok resp)
    /\ (ServiceA.SLEEP_LIMIT_MS < z
        \/ (0 < z /\ ServiceA.sleep_raises req z <> None) ->
        evs = [] /\ exists e, r = Raised e).
Proof.
  intros req d u m z Hb Hu Hz.
  assert (Hpd : parsed_delay req d = z) by (unfold parsed_delay; by rewrite Hz).
  rewrite (token_string_username req d u m Hb Hu).
  fold (parsed_delay req d). rewrite Hpd.
  pose proof (maybe_delay_returns (ServiceA.sleep_raises req) z) as Hret.
  pose proof (maybe_delay_overflows (ServiceA.sleep_raises req) z) as Hover.
  pose proof (maybe_delay_refused (ServiceA.sleep_raises req) z) as Href.
  destruct (ServiceA.maybe_delay_from_query_or_json _ z) as [evs|e].
  - split; [|split].
    + intros Hle. specialize (Hret (or_introl Hle)).
      destruct (Z.ltb_spec 0 z); [lia|]. injection Hret as ->. eauto.
    + intros Hin Hnone. specialize (Hret (or_intror (conj (proj2 Hin) Hnone))).
      destruct (Z.ltb_spec 0 z); [|lia]. injection Hret as ->. eauto.
    + intros [Hbig|[Hpos Hsome]].
      * destruct (Hover Hbig) as (msg & Hmsg). discriminate.
      * destruct (Z.le_gt_cases z ServiceA.SLEEP_LIMIT_MS) as [Hle|Hgt].
        -- destruct (ServiceA.sleep_raises req z) as [e|] eqn:He; [|done].
           specialize (Href e (conj Hpos Hle) eq_refl). discriminate.
        -- destruct (Hover ltac:(lia)) as (msg & Hmsg). discriminate.
  - split; [|split].
    + intros Hle. specialize (Hret (or_introl Hle)). discriminate.
    + intros Hin Hnone. specialize (Hret (or_intror (conj (proj2 Hin) Hnone))).
      discriminate.
    + intros _. eauto.
Qed.

(** X8.  The delay comes from the body when the body has one that counts
    as true, and from the query string otherwise: a delay in the query
    string is used when the body has none, and also when the body says 0.
    The delay so chosen is the one the view sleeps, when the sleep
    returns. *)
Theorem body_delay_overrides_query_delay :
  forall req d u m,
    ServiceA.body_of req = JDict d ->
    or_ (of_option (d !! "username")) (JStr "") = JStr u ->
    (forall v z,
        d !! "delay_ms" = Some v -> truthy v = true -> Py.int v = Some z ->
        parsed_delay req d = z
        /\ (sleep_returns req z ->
            (ServiceA.token req m).2 = if 0 <? z then [Sleep z] else []))
    /\ (forall q z,
        truthy (of_option (d !! "delay_ms")) = false ->
        ServiceA.args req !! "delay_ms" = Some q ->
        int_of_str q = Some z ->
        parsed_delay req d = z
        /\ (sleep_returns req z ->
            (ServiceA.token req m).2 = if 0 <? z then [Sleep z] else [])).
Proof.
  intros req d u m Hb Hu.
  assert (Hsleep : forall z,
             parsed_delay req d = z -> sleep_returns req z ->
             (ServiceA.token req m).2 = if 0 <? z then [Sleep z] else []).
  { intros z Hz Hret. rewrite <- Hz in Hret.
    rewrite (token_sleep_returns req d u m Hb Hu Hret). by rewrite Hz. }
  split.
  - intros v z Hd Hv Hz.
    assert (Hpd : parsed_delay req d = z).
    { unfold parsed_delay, ServiceA.delay_value, or_. rewrite Hd.
      simpl of_option. rewrite Hv. cbn iota. by rewrite Hv, Hz. }
    split; [exact Hpd|by apply Hsleep].
  - intros q z Hd Ha Hz.
    assert (Hq : truthy (JStr q) = true).
    { destruct q; [discriminate Hz|reflexivity]. }
    assert (Hpd : parsed_delay req d = z).
    { unfold parsed_delay, ServiceA.delay_value.
      unfold or_ at 2. rewrite Hd, Ha. simpl of_option.
      unfold or_. rewrite Hq. simpl Py.int. by rewrite Hz. }
    split; [exact Hpd|by apply Hsleep].
Qed.

(** ** service-b: every run of the forwarder, case by case *)

(** What the [try] block returned, read back. *)
Lemma try_block_ok_inv o t :
  try_block o = Ok t ->
  exists r,
    o = Responds r
    /\ ((status_code r = 401 /\ t = ("auth_failed", None, None))
        \/ (status_code r <> 401 /\ ~ 400 <= status_code r < 600
            /\ exists j, json_body r = Some j /\ t = ("ok", Some j, None))).
Proof.
  unfold try_block, raise_for_status, json.
  destruct o as [r|e]; simpl; [|discriminate]. intros H. exists r.
  split; [reflexivity|].
  destruct (Z.eqb_spec (status_code r) 401) as [H401|H401].
  { injection H as <-. by left. }
  right. split; [exact H401|].
  destruct (Z.leb_spec 400 (status_code r));
    destruct (Z.ltb_spec (status_code r) 600); simpl in H;
    try discriminate;
    (split; [lia|]);
    (destruct (json_body r) as [j|]; simpl in H; [|discriminate]);
    injection H as <-; eauto.
Qed.

(** X9.  A run of the forwarder makes one outbound call more than it
    sleeps, and it sleeps at most once: one call without retry, one or two
    with it.  [retries_used] goes up by the number of sleeps, so it moves
    only when a second call is made. *)
Theorem calls_are_one_more_than_sleeps :
  forall username password delay_ms request_id enable_retry net m,
    let '(r, m', evs) :=
      call_provider_token username password delay_ms request_id enable_retry
        net m in
    posts evs = S (sleeps evs)
    /\ (posts evs <= attempts enable_retry)%nat
    /\ (sleeps evs <= 1)%nat
    /\ m' retries_used = m retries_used + Z.of_nat (sleeps evs)
    /\ (enable_retry = false -> posts evs = 1%nat).
Proof.
  intros username password delay_ms request_id enable_retry net m.
  run_cases enable_retry;
    repeat split; try reflexivity; try discriminate;
    unfold incr, posts, sleeps, post, log_failure, log_timeout, log_json;
    simpl; lia.
Qed.

(** What one run adds to the failure counters. *)
Lemma run_deltas username password delay_ms request_id enable_retry net m :
  let '(r, m', evs) :=
    call_provider_token username password delay_ms request_id enable_retry
      net m in
  m' provider_failures - m provider_failures = Z.of_nat (prints evs)
  /\ m' provider_failures - m provider_failures
     = (m' provider_timeouts - m provider_timeouts)
       + (m' provider_connection_errors - m provider_connection_errors)
       + (m' provider_other_errors - m provider_other_errors)
  /\ 0 <= m' provider_timeouts - m provider_timeouts
  /\ 0 <= m' provider_connection_errors - m provider_connection_errors
  /\ 0 <= m' provider_other_errors - m provider_other_errors <= 1
  /\ m' provider_failures - m provider_failures
     <= Z.of_nat (attempts enable_retry)
  /\ 0 <= m' retries_used - m retries_used
  /\ m' retries_used - m retries_used <= 1
  /\ m' retries_used - m retries_used
     <= (m' provider_timeouts - m provider_timeouts)
        + (m' provider_connection_errors - m provider_connection_errors).
Proof.
  run_cases enable_retry;
    unfold incr, prints, post, log_failure, log_timeout, log_json;
    simpl; lia.
Qed.

(** X10.  In every run each failed attempt is counted once and logged once:
    [provider_failures] goes up by the number of records the run prints,
    and by exactly the sum of what the timeout, connection-error and
    other-error counters go up by; that is at most the number of attempts,
    and at most one of the failures is of the other-error class. *)
Theorem each_failed_attempt_is_counted_and_logged_once :
  forall username password delay_ms request_id enable_retry net m,
    let '(r, m', evs) :=
      call_provider_token username password delay_ms request_id enable_retry
        net m in
    m' provider_failures - m provider_failures = Z.of_nat (prints evs)
    /\ m' provider_failures - m provider_failures
       = (m' provider_timeouts - m provider_timeouts)
         + (m' provider_connection_errors - m provider_connection_errors)
         + (m' provider_other_errors - m provider_other_errors)
    /\ (prints evs <= attempts enable_retry)%nat
    /\ 0 <= m' provider_other_errors - m provider_other_errors <= 1.
Proof.
  intros username password delay_ms request_id enable_retry net m.
  pose proof (run_deltas username password delay_ms request_id enable_retry
                net m) as H.
  destruct (call_provider_token _ _ _ _ _ _ _) as [[r m'] evs].
  destruct H as (Hp & Hsum & _ & _ & Ho & Hle & _).
  repeat split; try lia.
Qed.

Lemma protected_action_accounted req uuid4 net m :
  accounted m -> accounted (protected_action req uuid4 net m).1.2.
Proof.
  unfold accounted, protected_action. intros (H1 & H2 & H3 & H4).
  destruct (parse_body (body_of req)) as [a|e]; simpl.
  2:{ unfold incr. simpl. lia. }
  pose proof (run_deltas (arg_username a) (arg_password a) (arg_delay_ms a)
                (resolve_request_id req uuid4) (arg_enable_retry a) net
                (incr protected_action_requests m)) as Hrun.
  pose proof (for_attempt_request_counters (arg_username a) (arg_password a)
                (arg_delay_ms a) (resolve_request_id req uuid4)
                (arg_enable_retry a) net
                (seq 0 (attempts (arg_enable_retry a))) None
                (incr protected_action_requests m)) as Hreq.
  unfold call_provider_token in *.
  destruct (for_attempt _ _ _ _ _ _ _ _ _) as [[r m'] evs]. simpl in *.
  destruct Hreq as [_ Hpar].
  assert (Hatt : Z.of_nat (attempts (arg_enable_retry a)) <= 2)
    by (destruct (arg_enable_retry a); simpl; lia).
  unfold incr in *. simpl in *. lia.
Qed.

Lemma handle_accounted req uuid4 net m :
  accounted m -> accounted (handle req uuid4 net m).1.2.
Proof.
  intros Hm.
  assert (Hd : accounted (dispatch req uuid4 net m).1.2).
  { unfold dispatch. repeat case_bool_decide; simpl; try exact Hm.
    by apply protected_action_accounted. }
  unfold handle, log_request.
  destruct (dispatch req uuid4 net m) as [[r m1] evs]. simpl in *.
  unfold accounted, incr in *. simpl. exact Hd.
Qed.

(** X11.  For the lifetime of the consumer, starting from the counters at
    zero: [provider_failures] is the sum of the three class counters,
    [retries_used] is at most the number of transient failures and at most
    the number of actions, and there are at most two failures per action. *)
Theorem failure_counters_stay_accounted :
  accounted METRICS
  /\ (forall arrs m, accounted m -> accounted (serve arrs m))
  /\ (forall arrs, accounted (serve arrs METRICS)).
Proof.
  assert (H0 : accounted METRICS) by (unfold accounted, METRICS; lia).
  assert (Hs : forall arrs m, accounted m -> accounted (serve arrs m)).
  { induction arrs as [|a arrs IH]; intros m Hm; simpl; [exact Hm|].
    apply IH. by apply handle_accounted. }
  split; [exact H0|]. split; [exact Hs|]. intros arrs. by apply Hs.
Qed.

(** X12.  The triple a run returns has one of three shapes, each backed by
    what an attempt of that run did: ["ok"] carries the decoded body of a
    response whose status is neither 401 nor an error status, and no error
    text; ["auth_failed"] carries nothing and comes from a 401; and
    ["provider_failed"] carries no body and the text of an exception an
    attempt of the run raised, so the ["unknown error"] text is never
    returned. *)
Theorem outcome_is_backed_by_an_attempt :
  forall username password delay_ms request_id enable_retry net m st pj err,
    (call_provider_token username password delay_ms request_id enable_retry
       net m).1.1 = Ok (st, pj, err) ->
    (st = "ok" /\ err = None
     /\ exists attempt r j,
          (attempt < attempts enable_retry)%nat
          /\ net attempt = Responds r
          /\ status_code r <> 401 /\ ~ 400 <= status_code r < 600
          /\ json_body r = Some j /\ pj = Some j)
    \/ (st = "auth_failed" /\ pj = None /\ err = None
        /\ exists attempt r,
             (attempt < attempts enable_retry)%nat
             /\ net attempt = Responds r /\ status_code r = 401)
    \/ (st = "provider_failed" /\ pj = None
        /\ exists attempt e,
             (attempt < attempts enable_retry)%nat
             /\ try_block (net attempt) = Raised e
             /\ err = Some (exc_str e)).
Proof.
  intros username password delay_ms request_id enable_retry net m st pj err.
  set (goal :=
         (st = "ok" /\ err = None
          /\ exists attempt r j,
               (attempt < attempts enable_retry)%nat
               /\ net attempt = Responds r
               /\ status_code r <> 401 /\ ~ 400 <= status_code r < 600
               /\ json_body r = Some j /\ pj = Some j)
         \/ (st = "auth_failed" /\ pj = None /\ err = None
             /\ exists attempt r,
                  (attempt < attempts enable_retry)%nat
                  /\ net attempt = Responds r /\ status_code r = 401)
         \/ (st = "provider_failed" /\ pj = None
             /\ exists attempt e,
                  (attempt < attempts enable_retry)%nat
                  /\ try_block (net attempt) = Raised e
                  /\ err = Some (exc_str e))).
  assert (Hret : forall attempt t,
             (attempt < attempts enable_retry)%nat ->
             try_block (net attempt) = Ok t ->
             @Ok outcome t = Ok (st, pj, err) -> goal).
  { intros attempt t Hlt Htry [= ->].
    apply try_block_ok_inv in Htry as (r & Hnet & [[H401 Ht]|Hok]).
    - injection Ht as -> -> ->. right. left. repeat split; eauto.
    - destruct Hok as (Hne & Hout & j & Hj & Ht). injection Ht as -> -> ->.
      left. repeat split; eauto 10. }
  assert (Hfail : forall attempt e,
             (attempt < attempts enable_retry)%nat ->
             try_block (net attempt) = Raised e ->
             @Ok outcome (provider_failed (Some e)) = Ok (st, pj, err) ->
             goal).
  { intros attempt e Hlt Htry [= <- <- <-]. right. right. eauto 10. }
  clearbody goal. revert Hret Hfail.
  run_cases enable_retry; intros Hret Hfail H; try discriminate H;
    first
      [ eapply (Hret 0%nat); [lia|eassumption|exact H]
      | eapply (Hret 1%nat); [lia|eassumption|exact H]
      | eapply (Hfail 1%nat); [lia|eassumption|exact H]
      | eapply (Hfail 0%nat); [lia|eassumption|exact H] ].
Qed.

(** ** service-b: what the endpoint answers *)

Lemma try_block_passes r j :
  status_code r <> 401 -> ~ 400 <= status_code r < 600 ->
  json_body r = Some j ->
  try_block (Responds r) = Ok ("ok", Some j, None).
Proof.
  intros Hne Hout Hj. unfold try_block, raise_for_status, json. simpl.
  destruct (Z.eqb_spec (status_code r) 401) as [|_]; [done|].
  rewrite Hj.
  destruct (Z.leb_spec 400 (status_code r));
    destruct (Z.ltb_spec (status_code r) 600); try reflexivity; lia.
Qed.

(** The three forms of a returned triple, by induction on the loop. *)
Lemma for_attempt_forms username password delay_ms request_id enable_retry
    net range :
  forall last_exc m t,
    (for_attempt username password delay_ms request_id enable_retry net
       range last_exc m).1.1 = Ok t ->
    t = ("auth_failed", None, None)
    \/ (exists j, t = ("ok", Some j, None))
    \/ (exists s, t = ("provider_failed", None, Some s)).
Proof.
  induction range as [|attempt range IH]; intros last_exc m t; simpl.
  { intros [= <-]. right. right. unfold provider_failed. eauto. }
  destruct (try_block (net attempt)) as [t0|e] eqn:Htry; simpl.
  { intros [= <-]. apply try_block_ok_inv in Htry as (r & _ & [[_ ->]|Hok]).
    - by left.
    - destruct Hok as (_ & _ & j & _ & ->). right. left. eauto. }
  destruct (isinstance_Timeout e).
  { destruct (backoff _ _ _) as [m1 pause]. specialize (IH (Some e) m1 t).
    by destruct (for_attempt _ _ _ _ _ _ range (Some e) m1) as [[r' m2] evs]. }
  destruct (isinstance_ConnectionError e).
  { destruct (backoff _ _ _) as [m1 pause]. specialize (IH (Some e) m1 t).
    by destruct (for_attempt _ _ _ _ _ _ range (Some e) m1) as [[r' m2] evs]. }
  destruct (isinstance_RequestException e); simpl; [|discriminate].
  intros [= <-]. right. right. unfold provider_failed. eauto.
Qed.

Lemma parse_body_of_string_username req u :
  string_username (body_of req) = Some u ->
  exists d,
    body_of req = JDict d
    /\ parse_body (body_of req)
       = Ok (ActionArgs
               (str_strip u)
               (or_ (of_option (d !! "password")) (JStr ""))
               (or_ (of_option (d !! "action")) (JStr "ping"))
               (default 0 (Py.int (or_ (of_option (d !! "delay_ms")) (JInt 0))))
               (bool_ (default_true (of_option (d !! "retry"))))).
Proof.
  intros Hu. apply string_username_some in Hu as (d & Hb & Hu).
  exists d. split; [exact Hb|]. rewrite Hb.
  by apply parse_body_string_username.
Qed.

Lemma parse_body_raises body :
  string_username body = None ->
  exists msg, parse_body body = Raised (Exc AttributeError msg).
Proof.
  unfold string_username, parse_body.
  destruct body as [| | | | |l|d]; simpl; eauto.
  destruct (or_ (of_option (d !! "username")) (JStr "")); simpl; eauto.
  discriminate.
Qed.

(** X13.  An answer of [protected_action] is one of three: 200 with
    [consumer: "ok"] and the run's correlation id, 401 with the constant
    ["invalid credentials"] body, or 503 with ["provider unavailable"] and
    a text as [details].  The text of an exception reaches the client in
    the 503 [details] only. *)
Theorem protected_action_answers :
  forall req uuid4 net m resp,
    (protected_action req uuid4 net m).1.1 = Ok resp ->
    (status resp = 200
     /\ exists d,
          body resp = JDict d
          /\ d !! "consumer" = Some (JStr "ok")
          /\ d !! "request_id" = Some (JStr (resolve_request_id req uuid4)))
    \/ resp = Response (JDict {[ "error" := JStr "invalid credentials" ]}) 401
    \/ exists details,
         resp = Response
                  (JDict {[ "error" := JStr "provider unavailable";
                            "details" := JStr details ]}) 503.
Proof.
  intros req uuid4 net m resp. unfold protected_action, call_provider_token.
  destruct (parse_body (body_of req)) as [a|e]; simpl; [|discriminate].
  pose proof (for_attempt_forms (arg_username a) (arg_password a)
                (arg_delay_ms a) (resolve_request_id req uuid4)
                (arg_enable_retry a) net
                (seq 0 (attempts (arg_enable_retry a))) None
                (incr protected_action_requests m)) as Hforms.
  destruct (for_attempt _ _ _ _ _ _ _ _ _) as [[r m'] evs]. simpl in *.
  destruct r as [t|e]; simpl; [|discriminate].
  destruct (Hforms t eq_refl) as [->|[(j & ->)|(s & ->)]]; simpl.
  - intros [= <-]. right. by left.
  - destruct (Py.get j "user") as [user|]; simpl; [|discriminate].
    destruct (Py.get j "token") as [tok|]; simpl; [|discriminate].
    intros [= <-]. left. simpl. split; [reflexivity|].
    eexists. split; [reflexivity|]. split; reflexivity.
  - intros [= <-]. right. right. by exists s.
Qed.

(** X14.  When the provider answers with a passing status and a body that
    is JSON but not an object, the forwarder returns ["ok"] and
    [protected_action] then raises [AttributeError]: the application
    answers 500 after its one outbound call, and no failure is counted. *)
Theorem provider_body_that_is_no_object_is_unhandled :
  forall req uuid4 net m u r j,
    routes_to_action req = true ->
    string_username (body_of req) = Some u ->
    net 0%nat = Responds r ->
    status_code r <> 401 -> ~ 400 <= status_code r < 600 ->
    json_body r = Some j ->
    (forall d, j <> JDict d) ->
    let '(res, m', evs) := protected_action req uuid4 net m in
    (exists msg, res = Raised (Exc AttributeError msg))
    /\ posts evs = 1%nat
    /\ m' provider_failures = m provider_failures
    /\ status (handle req uuid4 net m).1.1 = 500.
Proof.
  intros req uuid4 net m u r j Hroute Hu Hnet Hne Hout Hj Hnd.
  apply parse_body_of_string_username in Hu as (d & Hb & Hparse).
  assert (Htry : try_block (net 0%nat) = Ok ("ok", Some j, None)).
  { rewrite Hnet. by apply try_block_passes. }
  assert (Hpa : exists msg,
             protected_action req uuid4 net m
             = (Raised (Exc AttributeError msg),
                incr protected_action_requests m,
                [post (str_strip u)
                   (or_ (of_option (d !! "password")) (JStr ""))
                   (default 0 (Py.int (or_ (of_option (d !! "delay_ms"))
                                         (JInt 0))))
                   (resolve_request_id req uuid4)])).
  { rewrite (protected_action_parsed _ _ _ _ _ Hparse). cbv zeta.
    unfold call_provider_token. cbn [arg_username arg_password arg_delay_ms
                                      arg_enable_retry arg_action].
    assert (Hseq : exists range,
               seq 0 (attempts (bool_ (default_true (of_option (d !! "retry")))))
               = 0%nat :: range)
      by (destruct (bool_ _); simpl; eauto).
    destruct Hseq as (range & ->).
    rewrite (for_attempt_returns _ _ _ _ _ _ _ _ _ _ _ Htry).
    simpl. destruct j; try (eexists; reflexivity). by destruct (Hnd d0). }
  destruct Hpa as (msg & Hpa).
  unfold handle. rewrite (dispatch_action _ _ _ _ Hroute). rewrite Hpa.
  simpl. repeat split. by exists msg.
Qed.

(** X15.  When the provider answers with a passing status and a JSON
    object, the endpoint answers 200 and echoes the action, the object's
    [user] and [token] and the correlation id; a key the object lacks is
    echoed as [null], not rejected. *)
Theorem provider_object_is_echoed :
  forall req uuid4 net m u r dj,
    string_username (body_of req) = Some u ->
    net 0%nat = Responds r ->
    status_code r <> 401 -> ~ 400 <= status_code r < 600 ->
    json_body r = Some (JDict dj) ->
    exists d action,
      body_of req = JDict d
      /\ action = or_ (of_option (d !! "action")) (JStr "ping")
      /\ (protected_action req uuid4 net m).1.1
         = Ok (Response
                 (JDict {[ "consumer" := JStr "ok";
                           "action" := action;
                           "user" := of_option (dj !! "user");
                           "token" := of_option (dj !! "token");
                           "request_id"
                             := JStr (resolve_request_id req uuid4) ]}) 200)
      /\ (dj !! "token" = None -> of_option (dj !! "token") = JNull)
      /\ posts (protected_action req uuid4 net m).2 = 1%nat.
Proof.
  intros req uuid4 net m u r dj Hu Hnet Hne Hout Hj.
  apply parse_body_of_string_username in Hu as (d & Hb & Hparse).
  exists d, (or_ (of_option (d !! "action")) (JStr "ping")).
  split; [exact Hb|]. split; [reflexivity|].
  assert (Htry : try_block (net 0%nat) = Ok ("ok", Some (JDict dj), None)).
  { rewrite Hnet. by apply try_block_passes. }
  rewrite (protected_action_parsed _ _ _ _ _ Hparse). cbv zeta.
  unfold call_provider_token. cbn [arg_username arg_password arg_delay_ms
                                    arg_enable_retry arg_action].
  assert (Hseq : exists range,
             seq 0 (attempts (bool_ (default_true (of_option (d !! "retry")))))
             = 0%nat :: range)
    by (destruct (bool_ _); simpl; eauto).
  destruct Hseq as (range & ->).
  rewrite (for_attempt_returns _ _ _ _ _ _ _ _ _ _ _ Htry).
  simpl. split; [reflexivity|]. split; [by intros ->|reflexivity].
Qed.

(** ** Log records *)

Lemma prints_app evs evs' : prints (evs ++ evs') = (prints evs + prints evs')%nat.
Proof. unfold prints. by rewrite List.filter_app, length_app. Qed.

Lemma token_prints_nothing req m : prints (ServiceA.token req m).2 = 0%nat.
Proof.
  unfold ServiceA.token, ServiceA.token_view.
  destruct (Py.get (ServiceA.body_of req) "username") as [v|]; simpl;
    [|reflexivity].
  destruct (Py.strip (or_ v (JStr ""))) as [u|]; simpl; [|reflexivity].
  destruct (Py.get (ServiceA.body_of req) "password") as [p|]; simpl;
    [|reflexivity].
  destruct (Py.get (ServiceA.body_of req) "delay_ms") as [dl|]; simpl;
    [|reflexivity].
  unfold ServiceA.maybe_delay_from_query_or_json, ServiceA.time_sleep.
  repeat match goal with
         | |- context [if ?b then _ else _] => destruct b; simpl
         | |- context [match ServiceA.sleep_raises ?r ?z with _ => _ end] =>
             destruct (ServiceA.sleep_raises r z); simpl
         end; reflexivity.
Qed.

Lemma dispatch_prints_nothing_A req m :
  prints (ServiceA.dispatch req m).2 = 0%nat.
Proof.
  unfold ServiceA.dispatch. repeat case_bool_decide; simpl; try reflexivity.
  apply token_prints_nothing.
Qed.

(** X16.  Every request either application handles prints exactly one
    completion record, as its last effect, with the response status, the
    method and path, and as [request_id] the inbound [X-Request-ID] header,
    or the empty string when there is none.  The consumer's record shows
    the inbound header even when the run used a generated id: without a
    header the record's id is empty while the outbound calls carry the
    generated one. *)
Theorem completion_record_shows_the_inbound_header :
  (forall req m,
      exists rec,
        (ServiceA.handle req m).2
        = (ServiceA.dispatch req m).2 ++ [PrintJson rec]
        /\ prints (ServiceA.handle req m).2 = 1%nat
        /\ rec !! "level" = Some (JStr "INFO")
        /\ rec !! "service" = Some (JStr "service-a")
        /\ rec !! "endpoint"
           = Some (JStr (ServiceA.method req +:+ " " +:+ ServiceA.path req))
        /\ rec !! "status" = Some (JInt (status (ServiceA.handle req m).1.1))
        /\ rec !! "request_id"
           = Some (JStr (default "" (ServiceA.headers req !! "X-Request-ID"))))
  /\ (forall req uuid4 net m,
      exists rec,
        (handle req uuid4 net m).2
        = (dispatch req uuid4 net m).2 ++ [PrintJson rec]
        /\ rec !! "level" = Some (JStr "INFO")
        /\ rec !! "service" = Some (JStr "service-b")
        /\ rec !! "endpoint" = Some (JStr (method req +:+ " " +:+ path req))
        /\ rec !! "status" = Some (JInt (status (handle req uuid4 net m).1.1))
        /\ rec !! "request_id"
           = Some (JStr (default "" (headers req !! "X-Request-ID")))
        /\ (headers req !! "X-Request-ID" = None ->
            rec !! "request_id" = Some (JStr "")
            /\ resolve_request_id req uuid4 = uuid4)).
Proof.
  split.
  - intros req m.
    pose proof (dispatch_prints_nothing_A req m) as Hp.
    unfold ServiceA.handle, ServiceA.log_request, ServiceA.log_json.
    destruct (ServiceA.dispatch req m) as [[r m1] evs]. simpl in *.
    eexists. split; [reflexivity|].
    split; [rewrite prints_app, Hp; reflexivity|].
    repeat split.
  - intros req uuid4 net m.
    unfold handle, log_request, log_json.
    destruct (dispatch req uuid4 net m) as [[r m1] evs]. simpl.
    eexists. split; [reflexivity|]. do 5 (split; [reflexivity|]).
    intros Hh. unfold resolve_request_id. rewrite Hh. by split.
Qed.

(** X17.  Over one request the consumer prints one record per failed
    attempt and one completion record: the number of records is one more
    than what [provider_failures] went up by. *)
Theorem consumer_prints_one_record_per_failure_and_one_per_request :
  forall req uuid4 net m,
    let '(resp, m', evs) := handle req uuid4 net m in
    Z.of_nat (prints evs) = 1 + (m' provider_failures - m provider_failures).
Proof.
  intros req uuid4 net m.
  assert (Hd : Z.of_nat (prints (dispatch req uuid4 net m).2)
               = (dispatch req uuid4 net m).1.2 provider_failures
                 - m provider_failures).
  { unfold dispatch. repeat case_bool_decide; simpl;
      try (unfold prints; simpl; lia).
    unfold protected_action.
    destruct (parse_body (body_of req)) as [a|e]; simpl;
      [|unfold incr, prints; simpl; lia].
    pose proof (run_deltas (arg_username a) (arg_password a) (arg_delay_ms a)
                  (resolve_request_id req uuid4) (arg_enable_retry a) net
                  (incr protected_action_requests m)) as Hrun.
    destruct (call_provider_token _ _ _ _ _ _ _) as [[r m'] evs].
    destruct Hrun as (Hrun & _). simpl. unfold incr in Hrun. simpl in Hrun.
    lia. }
  unfold handle, log_request, log_json.
  destruct (dispatch req uuid4 net m) as [[r m1] evs]. simpl in *.
  rewrite prints_app. unfold incr. simpl. unfold prints at 2. simpl. lia.
Qed.

(** A run makes at most two calls. *)
Lemma calls_bound username password delay_ms request_id enable_retry net m :
  (posts (call_provider_token username password delay_ms request_id
            enable_retry net m).2 <= 2)%nat.
Proof.
  run_cases enable_retry;
    unfold posts, post, log_failure, log_timeout, log_json; simpl; lia.
Qed.

(** ** service-b: what a request makes the forwarder do *)

(** X18.  Whether a failed call is retried follows the truth value of the
    body's [retry] field: while every attempt fails with a timeout or a
    connection error, the endpoint makes two calls when the field is
    missing, [null] or any value that counts as true (the string ["false"]
    included), and one call when it is a value that counts as false. *)
Theorem retry_follows_the_truth_value_of_the_flag :
  forall req uuid4 net m u,
    string_username (body_of req) = Some u ->
    (forall attempt,
        exists e, try_block (net attempt) = Raised e
                  /\ retry_eligible e = true) ->
    exists d,
      body_of req = JDict d
      /\ posts (protected_action req uuid4 net m).2
         = (if truthy (default_true (of_option (d !! "retry")))
            then 2%nat else 1%nat)
      /\ (d !! "retry" = None \/ d !! "retry" = Some JNull ->
          posts (protected_action req uuid4 net m).2 = 2%nat)
      /\ (forall s, d !! "retry" = Some (JStr s) -> s <> "" ->
                    posts (protected_action req uuid4 net m).2 = 2%nat)
      /\ (d !! "retry" = Some (JBool false) \/ d !! "retry" = Some (JInt 0) ->
          posts (protected_action req uuid4 net m).2 = 1%nat).
Proof.
  intros req uuid4 net m u Hu Hnet.
  apply parse_body_of_string_username in Hu as (d & Hb & Hparse).
  exists d. split; [exact Hb|].
  assert (Hposts : posts (protected_action req uuid4 net m).2
                   = (if truthy (default_true (of_option (d !! "retry")))
                      then 2%nat else 1%nat)).
  { rewrite (protected_action_parsed _ _ _ _ _ Hparse). cbv zeta.
    cbn [arg_username arg_password arg_delay_ms arg_enable_retry arg_action].
    destruct (Hnet 0%nat) as (e0 & H0 & He0).
    destruct (Hnet 1%nat) as (e1 & H1 & He1).
    pose proof (exhaustion_in_forwarder (str_strip u)
                  (or_ (of_option (d !! "password")) (JStr ""))
                  (default 0 (Py.int (or_ (of_option (d !! "delay_ms"))
                                        (JInt 0))))
                  (resolve_request_id req uuid4)
                  (bool_ (default_true (of_option (d !! "retry")))) net
                  (incr protected_action_requests m) e0 e1 H0 He0
                  (fun _ => conj H1 He1)) as H.
    destruct (call_provider_token _ _ _ _ _ _ _) as [[r m'] evs].
    simpl in *. destruct H as (_ & -> & _). unfold bool_.
    by destruct (truthy _). }
  split; [exact Hposts|]. rewrite Hposts. repeat split.
  - by intros [->| ->].
  - intros s -> Hs. simpl. by destruct s.
  - by intros [->| ->].
Qed.

Lemma filter_posts_repeat call evs :
  is_post call = true ->
  Forall (fun ev => ev = call \/ is_post ev = false) evs ->
  List.filter is_post evs = repeat call (posts evs).
Proof.
  intros Hcall. unfold posts.
  induction 1 as [|ev evs [->|Hnp] _ IH]; simpl; [reflexivity| |].
  - rewrite Hcall. simpl. by rewrite <- IH.
  - by rewrite Hnp.
Qed.

(** X19.  All outbound calls of one request are the same call: to
    [http://127.0.0.1:8080/token], with the stripped username, the password
    as read and the delay as the integer [int] made of it (0 when it made
    none), under the run's correlation id and a timeout of one second.  A
    retry sends again what the first attempt sent. *)
Theorem every_call_of_a_run_is_the_same_call :
  forall req uuid4 net m u,
    string_username (body_of req) = Some u ->
    exists d,
      body_of req = JDict d
      /\ List.filter is_post (protected_action req uuid4 net m).2
         = repeat
             (Post "http://127.0.0.1:8080/token"
                {[ "username" := JStr (str_strip u);
                   "password" := or_ (of_option (d !! "password")) (JStr "");
                   "delay_ms"
                     := JInt (default 0
                                (Py.int (or_ (of_option (d !! "delay_ms"))
                                           (JInt 0)))) ]}
                {[ "X-Request-ID" := resolve_request_id req uuid4 ]}
                TIMEOUT_SECS)
             (posts (protected_action req uuid4 net m).2)
      /\ (1 <= posts (protected_action req uuid4 net m).2 <= 2)%nat
      /\ int_of_float TIMEOUT_SECS = Some 1.
Proof.
  intros req uuid4 net m u Hu.
  apply parse_body_of_string_username in Hu as (d & Hb & Hparse).
  exists d. split; [exact Hb|].
  rewrite (protected_action_parsed _ _ _ _ _ Hparse). cbv zeta.
  cbn [arg_username arg_password arg_delay_ms arg_enable_retry arg_action].
  set (pw := or_ (of_option (d !! "password")) (JStr "")).
  set (dl := default 0 (Py.int (or_ (of_option (d !! "delay_ms")) (JInt 0)))).
  set (er := bool_ (default_true (of_option (d !! "retry")))).
  set (rid := resolve_request_id req uuid4).
  set (m0 := incr protected_action_requests m).
  pose proof (for_attempt_events (str_strip u) pw dl rid er net
                (seq 0 (attempts er)) None m0) as Hev.
  pose proof (call_provider_token_posts (str_strip u) pw dl rid er net m0)
    as Hge.
  pose proof (calls_bound (str_strip u) pw dl rid er net m0) as Hle.
  unfold call_provider_token in *.
  destruct (for_attempt _ _ _ _ _ _ _ _ _) as [[r m'] evs]. simpl in *.
  split; [|split; [lia|reflexivity]].
  by apply (filter_posts_repeat (post (str_strip u) pw dl rid)).
Qed.

(** X20.  A body that yields no string username stops [protected_action]
    before the forwarder runs: the [AttributeError] leaves the view with no
    outbound call made and no counter but the two request counters moved,
    and the application answers 500.  Every other body leads to at least
    one call. *)
Theorem unusable_username_stops_before_any_call :
  forall req uuid4 net m,
    routes_to_action req = true ->
    (string_username (body_of req) = None ->
     (exists msg,
         protected_action req uuid4 net m
         = (Raised (Exc AttributeError msg),
            incr protected_action_requests m, []))
     /\ status (handle req uuid4 net m).1.1 = 500
     /\ posts (handle req uuid4 net m).2 = 0%nat
     /\ forall k,
          k <> requests_total -> k <> protected_action_requests ->
          (handle req uuid4 net m).1.2 k = m k)
    /\ (forall u,
           string_username (body_of req) = Some u ->
           (1 <= posts (handle req uuid4 net m).2)%nat).
Proof.
  intros req uuid4 net m Hroute. split.
  - intros Hu. apply parse_body_raises in Hu as (msg & Hr).
    assert (Hpa : protected_action req uuid4 net m
                  = (Raised (Exc AttributeError msg),
                     incr protected_action_requests m, [])).
    { unfold protected_action. by rewrite Hr. }
    split; [by exists msg|].
    unfold handle. rewrite (dispatch_action _ _ _ _ Hroute), Hpa. simpl.
    repeat split. intros k H1 H2. unfold incr.
    rewrite decide_False by done. by rewrite decide_False.
  - intros u Hu.
    apply parse_body_of_string_username in Hu as (d & Hb & Hparse).
    unfold handle. rewrite (dispatch_action _ _ _ _ Hroute).
    rewrite (protected_action_parsed _ _ _ _ _ Hparse). cbv zeta.
    cbn [arg_username arg_password arg_delay_ms arg_enable_retry arg_action].
    match goal with
    | |- context [call_provider_token ?u ?p ?dl ?rid ?er net ?m0] =>
        pose proof (call_provider_token_posts u p dl rid er net m0) as Hge;
        destruct (call_provider_token u p dl rid er net m0) as [[r m'] evs]
    end.
    simpl in *. unfold posts in *. rewrite List.filter_app, length_app. lia.
Qed.

Lemma or_idempotent v w : or_ (or_ v w) w = or_ v w.
Proof.
  unfold or_. destruct (truthy v) eqn:Hv; [by rewrite Hv|].
  by destruct (truthy w).
Qed.

(** ** The two services together *)

Import Loopback.

(** What the delay step slept, when it returned. *)
Lemma maybe_delay_ok raises z evs :
  ServiceA.maybe_delay_from_query_or_json raises z = Ok evs ->
  evs = if 0 <? z then [Sleep z] else [].
Proof.
  unfold ServiceA.maybe_delay_from_query_or_json, ServiceA.time_sleep. simpl.
  destruct (Z.eqb_spec z 0) as [->|Hz]; simpl; [by intros [= <-]|].
  destruct (0 <? z); [|by intros [= <-]].
  destruct (ServiceA.FLOAT_LIMIT <=? z); [discriminate|].
  destruct (ServiceA.SLEEP_LIMIT_MS <? z); [discriminate|].
  destruct (raises z); [discriminate|]. by intros [= <-].
Qed.

(** The delay service-a reads from the consumer's call is the delay the
    consumer sent. *)
Lemma consumer_call_delay raises u pw dl rid :
  parsed_delay (token_request raises (payload u pw dl) (headers_out rid))
    (payload u pw dl) = dl.
Proof.
  unfold parsed_delay, ServiceA.delay_value.
  replace (payload u pw dl !! "delay_ms") with (Some (JInt dl)) by reflexivity.
  unfold or_. simpl. destruct (Z.eqb_spec dl 0) as [->|Hz]; simpl; [done|].
  destruct (Z.eqb_spec dl 0); [done|reflexivity].
Qed.

(** What service-a does with the call the consumer sends for a username
    [u] it already stripped and a password [pw] it already defaulted. *)
Lemma token_of_consumer_call raises ma u pw dl rid :
  ServiceA.token
    (token_request raises (payload (str_strip u) (or_ pw (JStr "")) dl)
       (headers_out rid)) ma
  = match ServiceA.maybe_delay_from_query_or_json raises dl with
    | Ok evs =>
        (Ok (if String.eqb (str_strip u) "divya"
                && eq_str (or_ pw (JStr "")) "pass123"
             then Response
                    (JDict {[ "token" := JStr ("token-" +:+ str_strip u);
                              "user" := JStr (str_strip u) ]}) 200
             else Response (JDict {[ "error" := JStr "invalid credentials" ]})
                    401),
         ServiceA.incr ServiceA.token_requests ma, evs)
    | Raised e => (Raised e, ServiceA.incr ServiceA.token_requests ma, [])
    end.
Proof.
  rewrite (token_string_username
             (token_request raises
                (payload (str_strip u) (or_ pw (JStr "")) dl) (headers_out rid))
             (payload (str_strip u) (or_ pw (JStr "")) dl)
             (str_strip u) ma);
    [|reflexivity|apply or_str_default].
  pose proof (consumer_call_delay raises (str_strip u) (or_ pw (JStr "")) dl
                rid) as Hdl.
  unfold parsed_delay in Hdl. rewrite Hdl.
  rewrite !str_strip_idempotent.
  replace (of_option
             (payload (str_strip u) (or_ pw (JStr "")) dl !! "password"))
    with (or_ pw (JStr "")) by reflexivity.
  rewrite or_idempotent. reflexivity.
Qed.

(** When every attempt fails with a request exception, the loop ends in
    ["provider_failed"], and each run of at least one attempt counts a
    failure. *)
Lemma for_attempt_all_fail username password delay_ms request_id enable_retry
    net :
  (forall attempt,
      exists e, try_block (net attempt) = Raised e
                /\ isinstance_RequestException e = true) ->
  forall range last_exc m,
  exists details m' evs,
    for_attempt username password delay_ms request_id enable_retry net
      range last_exc m
    = (Ok ("provider_failed", None, Some details), m', evs)
    /\ m provider_failures + (match range with [] => 0 | _ => 1 end)
       <= m' provider_failures.
Proof.
  intros Hall range.
  induction range as [|attempt range IH]; intros last_exc m.
  - simpl. eexists _, _, _. split; [reflexivity|lia].
  - simpl. destruct (Hall attempt) as (e & -> & Hreq).
    destruct (isinstance_Timeout e).
    { destruct (backoff enable_retry attempt _) as [m1 pause] eqn:Hb.
      destruct (IH (Some e) m1) as (details & m' & evs & -> & Hle).
      eexists _, _, _. split; [reflexivity|].
      unfold backoff in Hb.
      destruct (enable_retry && Nat.eqb attempt 0); injection Hb as <- <-;
        unfold incr in Hle; simpl in Hle; destruct range; lia. }
    destruct (isinstance_ConnectionError e).
    { destruct (backoff enable_retry attempt _) as [m1 pause] eqn:Hb.
      destruct (IH (Some e) m1) as (details & m' & evs & -> & Hle).
      eexists _, _, _. split; [reflexivity|].
      unfold backoff in Hb.
      destruct (enable_retry && Nat.eqb attempt 0); injection Hb as <- <-;
        unfold incr in Hle; simpl in Hle; destruct range; lia. }
    rewrite Hreq. eexists _, _, _. split; [reflexivity|].
    unfold incr. simpl. lia.
Qed.

(** X21.  The two services together, when every call of the consumer is
    delivered to service-a's [token] and nothing but the provider's sleep
    stands between them.  For a body with a string username: when the delay
    is zero or negative, the consumer answers 200, with the user ["divya"],
    the token ["token-divya"] and the run's correlation id, when the
    stripped username is ["divya"] and the password is ["pass123"], and 401
    otherwise, either way after one call, with no failure counted and no
    retry; when the delay is a second or more, the consumer answers 503 and
    counts a failure; and when the delay is beyond the limit of the
    provider's clock, the provider raises on every call, and the consumer
    gives up after one call, counted as an error other than timeout and
    connection failure. *)
Theorem consumer_gets_what_the_provider_does :
  forall req uuid4 net m d u,
    body_of req = JDict d ->
    or_ (of_option (d !! "username")) (JStr "") = JStr u ->
    let pw := or_ (of_option (d !! "password")) (JStr "") in
    let dl := default 0 (Py.int (or_ (of_option (d !! "delay_ms")) (JInt 0))) in
    (forall attempt,
        delivered (payload (str_strip u) pw dl)
          (headers_out (resolve_request_id req uuid4)) (net attempt)) ->
    let '(res, m', evs) := protected_action req uuid4 net m in
    (dl <= 0 ->
     (str_strip u = "divya" -> of_option (d !! "password") = JStr "pass123" ->
      res = Ok (Response
                  (JDict {[ "consumer" := JStr "ok";
                            "action"
                              := or_ (of_option (d !! "action")) (JStr "ping");
                            "user" := JStr "divya";
                            "token" := JStr "token-divya";
                            "request_id"
                              := JStr (resolve_request_id req uuid4) ]}) 200))
     /\ (str_strip u <> "divya"
         \/ of_option (d !! "password") <> JStr "pass123" ->
         res = Ok (Response (JDict {[ "error" := JStr "invalid credentials" ]})
                     401))
     /\ posts evs = 1%nat
     /\ sleeps evs = 0%nat
     /\ m' = incr protected_action_requests m)
    /\ (1000 <= dl ->
        (exists details,
            res = Ok (Response
                        (JDict {[ "error" := JStr "provider unavailable";
                                  "details" := JStr details ]}) 503))
        /\ m provider_failures + 1 <= m' provider_failures)
    /\ (ServiceA.SLEEP_LIMIT_MS < dl ->
        posts evs = 1%nat
        /\ sleeps evs = 0%nat
        /\ m' = incr provider_other_errors
                  (incr provider_failures (incr protected_action_requests m))).
Proof.
  intros req uuid4 net m d u Hb Hu pw dl Hnet.
  pose proof (parse_body_string_username d u Hu) as Hparse.
  rewrite <- Hb in Hparse.
  rewrite (protected_action_parsed _ _ _ _ _ Hparse). cbv zeta.
  cbn [arg_username arg_password arg_delay_ms arg_enable_retry arg_action].
  fold pw. fold dl.
  set (rid := resolve_request_id req uuid4) in *.
  set (er := bool_ (default_true (of_option (d !! "retry")))).
  set (m0 := incr protected_action_requests m).
  assert (Hseq : exists range, seq 0 (attempts er) = 0%nat :: range)
    by (destruct er; simpl; eauto).
  pose proof (eq_str_or_default (of_option (d !! "password")) "pass123"
                ltac:(done)) as Hpw.
  assert (Hlimit : ServiceA.SLEEP_LIMIT_MS = 9223372036854) by reflexivity.
  destruct (Z.le_gt_cases dl 0) as [Hle|Hpos].
  { (* nothing to sleep: the first call is answered *)
    unfold call_provider_token. destruct Hseq as (range & ->).
    pose proof (Hnet 0%nat) as H0.
    inversion H0 as [raises ma resp ma' evs r Htok Hslept Hst Hj Heq
                    |raises ma resp ma' evs e Htok Hslept Hty Heq
                    |raises ma e0 ma' evs r Htok Hst Hj Heq];
      unfold pw in Htok; rewrite token_of_consumer_call in Htok;
      rewrite (maybe_delay_returns raises dl (or_introl Hle)) in Htok;
      [|injection Htok as _ _ <-;
        destruct (Z.ltb_spec 0 dl); [lia|]; simpl in Hslept; lia
       |discriminate Htok].
    injection Htok as <- _ _. fold pw in Hst, Hj.
    destruct (String.eqb_spec (str_strip u) "divya") as [Hs|Hs];
      [destruct (eq_str pw "pass123") eqn:He|]; simpl in Hst, Hj.
    - erewrite for_attempt_returns;
        [|rewrite <- Heq; by apply (try_block_ok r _ Hst Hj)].
      simpl. rewrite Hs.
      split; [|split; intros; lia]. intros _. repeat split.
      intros [Hn|Hn]; [done|]. exfalso. apply Hn. by apply Hpw.
    - erewrite for_attempt_returns;
        [|rewrite <- Heq; by apply try_block_401].
      simpl. split; [|split; intros; lia]. intros _. repeat split.
      intros _ Hp. apply Hpw in Hp. unfold pw in He. congruence.
    - erewrite for_attempt_returns;
        [|rewrite <- Heq; by apply try_block_401].
      simpl. split; [|split; intros; lia]. intros _. repeat split. done. }
  destruct (Z.le_gt_cases dl ServiceA.SLEEP_LIMIT_MS) as [Hin|Hbig].
  2: { (* no clock holds the delay: the provider raises *)
    unfold call_provider_token. destruct Hseq as (range & ->).
    pose proof (Hnet 0%nat) as H0.
    inversion H0 as [raises ma resp ma' evs r Htok Hslept Hst Hj Heq
                    |raises ma resp ma' evs e Htok Hslept Hty Heq
                    |raises ma e0 ma' evs r Htok Hst Hj Heq];
      unfold pw in Htok; rewrite token_of_consumer_call in Htok;
      (destruct (maybe_delay_overflows raises dl ltac:(lia)) as (msg & Hd));
      rewrite Hd in Htok; [discriminate Htok|discriminate Htok|].
    assert (Htry : try_block (net 0%nat)
                   = Raised (Exc HTTPError (http_error r))).
    { rewrite <- Heq. unfold try_block, raise_for_status. simpl.
      by rewrite Hst. }
    rewrite (for_attempt_other _ _ _ _ _ _ _ _ _ _ _ Htry eq_refl eq_refl
               eq_refl).
    simpl. split; [intros; lia|]. split.
    - intros _. split; [eauto|]. unfold m0, incr. simpl. lia.
    - intros _. repeat split. }
  destruct (Z.le_gt_cases 1000 dl) as [Hslow|Hfast].
  2: { destruct (call_provider_token _ _ _ _ _ _ _) as [[r m'] evs]. simpl.
       split; [|split]; intros; lia. }
  (* a second or more: no call is answered in time *)
  assert (Hall : forall attempt,
             exists e, try_block (net attempt) = Raised e
                       /\ isinstance_RequestException e = true).
  { intros attempt. pose proof (Hnet attempt) as Ha.
    inversion Ha as [raises ma resp ma' evs r Htok Hslept Hst Hj Heq
                    |raises ma resp ma' evs e Htok Hslept Hty Heq
                    |raises ma e0 ma' evs r Htok Hst Hj Heq].
    - exfalso. unfold pw in Htok. rewrite token_of_consumer_call in Htok.
      destruct (ServiceA.maybe_delay_from_query_or_json raises dl)
        as [evs0|e0] eqn:Hd; [|discriminate Htok].
      apply maybe_delay_ok in Hd. injection Htok as _ _ <-. subst evs0.
      destruct (Z.ltb_spec 0 dl); [|lia]. simpl in Hslept. lia.
    - exists e. split; [reflexivity|].
      unfold isinstance_RequestException. by rewrite Hty.
    - exists (Exc HTTPError (http_error r)). split; [|reflexivity].
      unfold try_block, raise_for_status. simpl. by rewrite Hst. }
  unfold call_provider_token.
  destruct (for_attempt_all_fail (str_strip u) pw dl rid er net Hall
              (seq 0 (attempts er)) None m0)
    as (details & m' & evs & -> & Hfail).
  simpl. split; [intros; lia|]. split; [|intros; lia].
  intros _. split; [eauto|].
  destruct Hseq as (range & Hrange). rewrite Hrange in Hfail.
  unfold m0, incr in Hfail. simpl in Hfail. lia.
Qed.

(** X22.  The correlation id crosses the hop: for every outbound call the
    consumer makes, the completion record service-a prints for that call
    carries the id the consumer resolved for the run. *)
Theorem correlation_id_reaches_the_provider_log :
  forall req uuid4 net m,
    Forall (fun ev =>
              forall url pl hs t ma raises,
                ev = Post url pl hs t ->
                exists evs rec,
                  (ServiceA.handle (token_request raises pl hs) ma).2
                  = evs ++ [PrintJson rec]
                  /\ rec !! "request_id"
                     = Some (JStr (resolve_request_id req uuid4))
                  /\ rec !! "endpoint" = Some (JStr "POST /token"))
      (protected_action req uuid4 net m).2.
Proof.
  intros req uuid4 net m.
  eapply Forall_impl; [apply protected_action_events|].
  intros ev Hcase url pl hs t ma raises Hev.
  destruct Hcase as [(u & p & dl & ->)|Hnp].
  - injection Hev as <- <- <- <-.
    unfold ServiceA.handle, ServiceA.log_request, ServiceA.log_json.
    destruct (ServiceA.dispatch _ ma) as [[r m1] evs]. simpl.
    eexists _, _. split; [reflexivity|]. split; reflexivity.
  - subst ev. discriminate.
Qed.

(** ** The further theorems at concrete requests *)

(** X3 at a health check of the provider. *)
Lemma health_witness :
  (ServiceA.handle Sample.health_request ServiceA.METRICS).1.1
  = Response (JDict {[ "status" := JStr "ok" ]}) 200.
Proof.
  pose proof (proj1 health_is_always_ok Sample.health_request
                ServiceA.METRICS eq_refl eq_refl) as H.
  destruct (ServiceA.handle _ _) as [[resp m'] evs]. by destruct H as (-> & _).
Defined.

(** X4 at a metrics query of the consumer before any other request. *)
Lemma metrics_witness :
  status (handle Sample.metrics_request Sample.uuid
            (Sample.always (Responds Sample.granted)) METRICS).1.1 = 200
  /\ (handle Sample.metrics_request Sample.uuid
        (Sample.always (Responds Sample.granted)) METRICS).1.2 requests_total
     = 1.
Proof.
  pose proof (proj2 metrics_snapshot_precedes_its_own_count
                Sample.metrics_request Sample.uuid
                (Sample.always (Responds Sample.granted)) METRICS
                eq_refl eq_refl) as H.
  destruct (handle _ _ _ _) as [[resp m'] evs].
  destruct H as (H1 & _ & _ & H2). split; [exact H1|exact H2].
Defined.

(** X5 at the fixed pair with a padded username. *)
Lemma constant_answer_witness :
  match (ServiceA.token (ServiceA.post_token Sample.padded_credentials)
           ServiceA.METRICS).1.1 with
  | Ok resp =>
      resp = Response
               (JDict {[ "token" := JStr "token-divya";
                         "user" := JStr "divya" ]}) 200
      \/ resp = Response (JDict {[ "error" := JStr "invalid credentials" ]})
                  401
  | Raised _ => True
  end.
Proof.
  destruct (ServiceA.token (ServiceA.post_token Sample.padded_credentials)
              ServiceA.METRICS).1.1 as [resp|e] eqn:E; [|exact I].
  exact (token_answers_are_constant _ _ _ E).
Defined.

(** X6 at a body whose username is a number, and at a body whose delay no
    clock holds. *)
Lemma token_raises_witness :
  status (ServiceA.handle (ServiceA.post_token Sample.numeric_username)
            ServiceA.METRICS).1.1 = 500
  /\ status (ServiceA.handle (ServiceA.post_token Sample.huge_delay)
               ServiceA.METRICS).1.1 = 500.
Proof.
  split.
  - destruct (token_raises_on_a_bad_username_or_a_failed_sleep
                (ServiceA.post_token Sample.numeric_username) ServiceA.METRICS
                eq_refl) as (H & _).
    destruct (H eq_refl) as (_ & H500 & _). exact H500.
  - destruct (token_raises_on_a_bad_username_or_a_failed_sleep
                (ServiceA.post_token Sample.huge_delay) ServiceA.METRICS
                eq_refl) as (_ & H).
    destruct (H Sample.huge_delay "divya" eq_refl eq_refl) as (_ & Hbig & _).
    destruct (Hbig eq_refl) as (_ & H500 & _). exact H500.
Defined.

(** X7 at a delay given as the text [1500]. *)
Lemma token_sleeps_witness :
  (ServiceA.token (ServiceA.post_token Sample.delayed) ServiceA.METRICS).2
  = [Sleep 1500].
Proof.
  pose proof (token_sleeps_for_a_positive_delay_within_the_limit
                (ServiceA.post_token Sample.delayed) Sample.delayed "x"
                ServiceA.METRICS 1500 eq_refl eq_refl eq_refl) as H.
  destruct (ServiceA.token _ _) as [[r m'] evs].
  destruct H as (_ & H & _).
  destruct H as (H & _); [split; [reflexivity|discriminate]|reflexivity|].
  exact H.
Defined.

(** X8 at a body that says 0 while the query string says 500. *)
Lemma query_delay_witness :
  (ServiceA.token Sample.zero_delay_with_query ServiceA.METRICS).2
  = [Sleep 500].
Proof.
  destruct (body_delay_overrides_query_delay Sample.zero_delay_with_query
              {[ "username" := JStr "divya"; "password" := JStr "pass123";
                 "delay_ms" := JInt 0 ]}
              "divya" ServiceA.METRICS eq_refl eq_refl) as (_ & H).
  destruct (H "500" 500 eq_refl eq_refl eq_refl) as (_ & Hsleep).
  apply Hsleep. right. split; [discriminate|reflexivity].
Defined.

(** X12 at a run whose call is answered 401. *)
Lemma outcome_witness :
  exists attempt r,
    (attempt < 2)%nat
    /\ Sample.always (Responds Sample.rejected) attempt = Responds r
    /\ status_code r = 401.
Proof.
  destruct (outcome_is_backed_by_an_attempt "divya" (JStr "wrong") 0 "abc123"
              true (Sample.always (Responds Sample.rejected)) METRICS
              "auth_failed" None None eq_refl)
    as [(Hst & _)|[(_ & _ & _ & H)|(Hst & _)]];
    [discriminate Hst|exact H|discriminate Hst].
Defined.

(** X13 at a granted request. *)
Lemma answers_witness :
  match (protected_action (post_action Sample.credentials) Sample.uuid
           (Sample.always (Responds Sample.granted)) METRICS).1.1 with
  | Ok resp => status resp = 200 \/ status resp = 401 \/ status resp = 503
  | Raised _ => True
  end.
Proof.
  destruct (protected_action (post_action Sample.credentials) Sample.uuid
              (Sample.always (Responds Sample.granted)) METRICS).1.1
    as [resp|e] eqn:E; [|exact I].
  destruct (protected_action_answers _ _ _ _ _ E)
    as [(H & _)|[->|(details & ->)]]; auto.
Defined.

(** X14 at a provider that answers 200 with a JSON array. *)
Lemma array_reply_witness :
  status (handle (post_action Sample.credentials) Sample.uuid
            (Sample.always (Responds Sample.array_reply)) METRICS).1.1 = 500
  /\ posts (protected_action (post_action Sample.credentials) Sample.uuid
              (Sample.always (Responds Sample.array_reply)) METRICS).2 = 1%nat.
Proof.
  pose proof (provider_body_that_is_no_object_is_unhandled
                (post_action Sample.credentials) Sample.uuid
                (Sample.always (Responds Sample.array_reply)) METRICS
                "divya" Sample.array_reply (JList [])
                eq_refl eq_refl eq_refl) as H.
  specialize (H ltac:(discriminate) ltac:(simpl; lia) eq_refl
                ltac:(discriminate)).
  destruct (protected_action _ _ _ _) as [[res m'] evs].
  destruct H as (_ & H1 & _ & H2). split; [exact H2|exact H1].
Defined.

(** X15 at a provider whose object has a user and no token. *)
Lemma user_only_witness :
  posts (protected_action (post_action Sample.credentials) Sample.uuid
           (Sample.always (Responds Sample.user_only)) METRICS).2 = 1%nat.
Proof.
  destruct (provider_object_is_echoed
              (post_action Sample.credentials) Sample.uuid
              (Sample.always (Responds Sample.user_only)) METRICS
              "divya" Sample.user_only {[ "user" := JStr "divya" ]}
              eq_refl eq_refl ltac:(discriminate) ltac:(simpl; lia) eq_refl)
    as (d & action & _ & _ & _ & _ & H).
  exact H.
Defined.

(** X18 at a body whose retry flag is the text [false], while the provider
    never answers in time. *)
Lemma retry_as_text_witness :
  exists d,
    body_of (post_action Sample.retry_as_text) = JDict d
    /\ forall s, d !! "retry" = Some (JStr s) -> s <> "" ->
         posts (protected_action (post_action Sample.retry_as_text) Sample.uuid
                  (Sample.always (Throws Sample.timed_out)) METRICS).2
         = 2%nat.
Proof.
  destruct (retry_follows_the_truth_value_of_the_flag
              (post_action Sample.retry_as_text) Sample.uuid
              (Sample.always (Throws Sample.timed_out)) METRICS "divya"
              eq_refl
              (fun _ => ex_intro _ Sample.timed_out (conj eq_refl eq_refl)))
    as (d & Hb & _ & _ & H & _).
  exists d. split; [exact Hb|exact H].
Defined.

(** X19 at a request retried after a timeout. *)
Lemma same_call_witness :
  exists d,
    body_of (post_action Sample.credentials) = JDict d
    /\ (1 <= posts (protected_action (post_action Sample.credentials)
                      Sample.uuid (Sample.always (Throws Sample.timed_out))
                      METRICS).2 <= 2)%nat.
Proof.
  destruct (every_call_of_a_run_is_the_same_call
              (post_action Sample.credentials) Sample.uuid
              (Sample.always (Throws Sample.timed_out)) METRICS "divya"
              eq_refl) as (d & Hb & _ & H & _).
  exists d. split; [exact Hb|exact H].
Defined.

(** X20 at a body whose username is a number. *)
Lemma unusable_username_witness :
  posts (handle (post_action Sample.numeric_username) Sample.uuid
           (Sample.always (Responds Sample.granted)) METRICS).2 = 0%nat.
Proof.
  destruct (unusable_username_stops_before_any_call
              (post_action Sample.numeric_username) Sample.uuid
              (Sample.always (Responds Sample.granted)) METRICS eq_refl)
    as (H & _).
  destruct (H eq_refl) as (_ & _ & H0 & _). exact H0.
Defined.

(** X21 at the fixed pair with a padded username, the provider answering
    what service-a answers; at a delay of two seconds, every call timing
    out; and at a delay no clock holds, the provider answering 500. *)
Lemma two_services_witness :
  (protected_action (post_action Sample.padded_credentials) Sample.uuid
     (Sample.always (Responds Sample.granted)) METRICS).1.1
  = Ok (Response
          (JDict {[ "consumer" := JStr "ok";
                    "action" := JStr "ping";
                    "user" := JStr "divya";
                    "token" := JStr "token-divya";
                    "request_id" := JStr Sample.uuid ]}) 200)
  /\ (exists details,
      (protected_action (post_action Sample.slow) Sample.uuid
         (Sample.always (Throws Sample.timed_out)) METRICS).1.1
      = Ok (Response
              (JDict {[ "error" := JStr "provider unavailable";
                        "details" := JStr details ]}) 503))
  /\ posts (protected_action (post_action Sample.huge_delay) Sample.uuid
              (Sample.always (Responds Sample.server_error)) METRICS).2
     = 1%nat.
Proof.
  split; [|split].
  - pose proof (consumer_gets_what_the_provider_does
                  (post_action Sample.padded_credentials) Sample.uuid
                  (Sample.always (Responds Sample.granted))
                  METRICS Sample.padded_credentials " divya "
                  eq_refl eq_refl) as H.
    cbv zeta in H.
    assert (Hnet : forall attempt : nat,
               delivered
                 (payload (str_strip " divya ")
                    (or_ (of_option (Sample.padded_credentials !! "password"))
                       (JStr ""))
                    (default 0
                       (Py.int
                          (or_ (of_option
                                  (Sample.padded_credentials !! "delay_ms"))
                             (JInt 0)))))
                 (headers_out
                    (resolve_request_id
                       (post_action Sample.padded_credentials) Sample.uuid))
                 (Sample.always (Responds Sample.granted) attempt)).
    { intros attempt.
      eapply (answered _ _ (fun _ => None) ServiceA.METRICS);
        reflexivity. }
    specialize (H Hnet).
    destruct (protected_action _ _ _ _) as [[res m'] evs].
    destruct H as (H & _). destruct H as (H & _); [discriminate|].
    exact (H eq_refl eq_refl).
  - pose proof (consumer_gets_what_the_provider_does
                  (post_action Sample.slow) Sample.uuid
                  (Sample.always (Throws Sample.timed_out))
                  METRICS Sample.slow "divya" eq_refl eq_refl) as H.
    cbv zeta in H.
    assert (Hnet : forall attempt : nat,
               delivered
                 (payload (str_strip "divya")
                    (or_ (of_option (Sample.slow !! "password")) (JStr ""))
                    (default 0
                       (Py.int
                          (or_ (of_option (Sample.slow !! "delay_ms"))
                             (JInt 0)))))
                 (headers_out
                    (resolve_request_id (post_action Sample.slow) Sample.uuid))
                 (Sample.always (Throws Sample.timed_out) attempt)).
    { intros attempt.
      eapply (timed_out _ _ (fun _ => None) ServiceA.METRICS);
        reflexivity. }
    specialize (H Hnet).
    destruct (protected_action _ _ _ _) as [[res m'] evs].
    destruct H as (_ & H & _). destruct H as (H & _); [discriminate|].
    exact H.
  - pose proof (consumer_gets_what_the_provider_does
                  (post_action Sample.huge_delay) Sample.uuid
                  (Sample.always (Responds Sample.server_error))
                  METRICS Sample.huge_delay "divya" eq_refl eq_refl) as H.
    cbv zeta in H.
    assert (Hnet : forall attempt : nat,
               delivered
                 (payload (str_strip "divya")
                    (or_ (of_option (Sample.huge_delay !! "password"))
                       (JStr ""))
                    (default 0
                       (Py.int
                          (or_ (of_option (Sample.huge_delay !! "delay_ms"))
                             (JInt 0)))))
                 (headers_out
                    (resolve_request_id (post_action Sample.huge_delay)
                       Sample.uuid))
                 (Sample.always (Responds Sample.server_error) attempt)).
    { intros attempt.
      eapply (failed _ _ (fun _ => None) ServiceA.METRICS);
        reflexivity. }
    specialize (H Hnet).
    destruct (protected_action _ _ _ _) as [[res m'] evs].
    destruct H as (_ & _ & H). destruct H as (H & _); [reflexivity|].
    exact H.
Defined.

(** X11 at the counters after one request that ran out of attempts. *)
Lemma accounted_witness :
  accounted
    (serve [Arrival (post_action Sample.credentials) Sample.uuid
              (Sample.always (Throws Sample.timed_out))] METRICS).
Proof.
  destruct failure_counters_stay_accounted as (H0 & H & _).
  apply H. exact H0.
Defined.
